(** * KisResourceCacheDb: the resource cache database of libs/resources

    A shallow embedding of [libs/resources/KisResourceCacheDb.cpp].  The
    SQLite database behind the process-wide connection is a record of row
    lists, one per table; every C++ function becomes a function from the
    process state to a result and a new state.  Whatever the source file
    cannot decide (whether a Qt resource file opens, whether the engine
    refuses a statement, what the registry of resource types holds) is a
    field of the environment [Env], so that theorems quantify over it.
    The lines written to the log are returned by the functions whose
    contract speaks of them: [resourceNeedsUpdating] returns its own
    warnings, and the batch operations return the warnings their loops
    write; what an operation called from a loop writes on its own is not
    recorded. *)

From Stdlib Require Import ZArith List String Ascii Bool Lia.
Import ListNotations.
Open Scope string_scope.
Open Scope Z_scope.

(** ** Qt values *)

(** [int] is 32 bits wide: a [qlonglong] converted by [QVariant::toInt]
    keeps its low 32 bits, read as a signed number. *)
Definition wrap32 (z : Z) : Z := (z + 2 ^ 31) mod 2 ^ 32 - 2 ^ 31.

(** A [QVariant] read from an INTEGER column: [None] is the invalid variant
    ([QSqlQuery::value] without a current row), [Some z] a [qlonglong]. *)
Definition QVariant := option Z.

Definition isValidVariant (v : QVariant) : bool :=
  match v with Some _ => true | None => false end.

Definition toInt (v : QVariant) : Z :=
  match v with Some z => wrap32 z | None => 0 end.

Definition toBool (v : QVariant) : bool :=
  match v with Some z => negb (z =? 0) | None => false end.

(** A [QDateTime] is its number of milliseconds since the epoch. *)
Definition QDateTime := Z.

Definition toMSecsSinceEpoch (t : QDateTime) : Z := t.

(** [toSecsSinceEpoch] is [toMSecsSinceEpoch() / 1000] in C++ arithmetic. *)
Definition toSecsSinceEpoch (t : QDateTime) : Z := Z.quot t 1000.

Inductive ErrorType :=
| NoError | ConnectionError | StatementError | TransactionError | UnknownError.

Record QSqlError := mkError {
  driverText : string;
  databaseText : string;
  errorType : ErrorType
}.

(** The default-constructed [QSqlError()]. *)
Definition noError : QSqlError := mkError "" "" NoError.

Definition isValid (e : QSqlError) : bool :=
  match errorType e with NoError => false | _ => true end.

(** ** Constants of the source file *)

Definition dbDriver : string := "QSQLITE".

Definition storageTypes : list string :=
  ["UNKNOWN"; "FOLDER"; "BUNDLE"; "ADOBE_BRUSH_LIBRARY"; "ADOBE_STYLE_LIBRARY"].

Definition resourceCacheDbFilename : string := "resourcecache.sqlite".

Definition databaseVersion : string := "0.0.1".

(** The list [tables] of [initDb]. *)
Definition tables : list string :=
  ["version_information"; "origin_types"; "resource_types"; "storages";
   "tags"; "resources"; "versioned_resources"; "resource_tags"].

(** The list [indexes] of [initDb]. *)
Definition indexes : list string := ["storages"].

(** [QSqlDriver::hasFeature(QSqlDriver::QuerySize)]: the QSQLITE driver
    cannot tell the size of a result set, the other drivers are taken to. *)
Definition hasFeature_QuerySize (driver : string) : bool :=
  negb (driver =? "QSQLITE")%string.

(** ** The tables *)

Record VersionInformationRow := mkVersionInformation {
  vi_database_version : string;
  vi_krita_version : string;
  vi_creation_date : string
}.

Record LookupRow := mkLookup {
  lk_id : Z;
  lk_name : string
}.

Record StorageRow := mkStorageRow {
  sr_id : Z;
  sr_origin_type_id : Z;
  sr_location : string;
  sr_timestamp : Z;
  sr_pre_installed : Z;
  sr_active : Z
}.

Record TagRow := mkTagRow {
  tr_id : Z;
  tr_url : string;
  tr_name : string;
  tr_comment : string;
  tr_resource_type_id : option Z;
  tr_active : Z
}.

Record ResourceRow := mkResourceRow {
  rr_id : Z;
  rr_resource_type_id : option Z;
  rr_name : string;
  rr_filename : string;
  rr_tooltip : string;
  rr_thumbnail : string;
  rr_status : Z
}.

(** [vr_storage_id] and [vr_version] are the values of scalar subqueries
    and are NULL ([None]) when the subquery selects nothing. *)
Record VersionedResourceRow := mkVersionedRow {
  vr_resource_id : Z;
  vr_storage_id : option Z;
  vr_version : option Z;
  vr_location : string;
  vr_timestamp : Z;
  vr_deleted : Z;
  vr_checksum : string
}.

Record ResourceTagRow := mkResourceTag {
  rt_resource_id : Z;
  rt_tag_id : Z
}.

(** Modelled from the spec: the [create_<table>.sql] scripts are not part of
    the sources.  The columns are those the statements of the source name,
    plus the [id] the spec gives each entity; no uniqueness or foreign-key
    constraint is modelled (the engine's refusals are the environment's).
    [dbTables] is what [QSqlDatabase::tables] answers. *)
Record DB := mkDB {
  dbTables : list string;
  version_information : list VersionInformationRow;
  origin_types : list LookupRow;
  resource_types : list LookupRow;
  storages : list StorageRow;
  tags : list TagRow;
  resources : list ResourceRow;
  versioned_resources : list VersionedResourceRow;
  resource_tags : list ResourceTagRow
}.

Definition emptyDB : DB := mkDB [] [] [] [] [] [] [] [] [].

Definition set_dbTables (d : DB) (v : list string) : DB :=
  mkDB v (version_information d) (origin_types d) (resource_types d)
       (storages d) (tags d) (resources d) (versioned_resources d)
       (resource_tags d).

Definition set_version_information (d : DB) (v : list VersionInformationRow) : DB :=
  mkDB (dbTables d) v (origin_types d) (resource_types d)
       (storages d) (tags d) (resources d) (versioned_resources d)
       (resource_tags d).

Definition set_origin_types (d : DB) (v : list LookupRow) : DB :=
  mkDB (dbTables d) (version_information d) v (resource_types d)
       (storages d) (tags d) (resources d) (versioned_resources d)
       (resource_tags d).

Definition set_resource_types (d : DB) (v : list LookupRow) : DB :=
  mkDB (dbTables d) (version_information d) (origin_types d) v
       (storages d) (tags d) (resources d) (versioned_resources d)
       (resource_tags d).

Definition set_storages (d : DB) (v : list StorageRow) : DB :=
  mkDB (dbTables d) (version_information d) (origin_types d) (resource_types d)
       v (tags d) (resources d) (versioned_resources d)
       (resource_tags d).

Definition set_tags (d : DB) (v : list TagRow) : DB :=
  mkDB (dbTables d) (version_information d) (origin_types d) (resource_types d)
       (storages d) v (resources d) (versioned_resources d)
       (resource_tags d).

Definition set_resources (d : DB) (v : list ResourceRow) : DB :=
  mkDB (dbTables d) (version_information d) (origin_types d) (resource_types d)
       (storages d) (tags d) v (versioned_resources d)
       (resource_tags d).

Definition set_versioned_resources (d : DB) (v : list VersionedResourceRow) : DB :=
  mkDB (dbTables d) (version_information d) (origin_types d) (resource_types d)
       (storages d) (tags d) (resources d) v
       (resource_tags d).

Definition set_resource_tags (d : DB) (v : list ResourceTagRow) : DB :=
  mkDB (dbTables d) (version_information d) (origin_types d) (resource_types d)
       (storages d) (tags d) (resources d) (versioned_resources d)
       v.

Definition contains (l : list string) (s : string) : bool :=
  existsb (String.eqb s) l.

(** The id SQLite gives a new row: one more than the largest in use. *)
Definition nextId (ids : list Z) : Z := 1 + fold_right Z.max 0 ids.

(** ** The text of the statements

    Adjacent C++ string literals are concatenated as they stand, without a
    blank in between; [nl] is the escape [\n]. *)

Definition nl : string := String (ascii_of_nat 10) EmptyString.

Definition sql_clear_origin_types : string := "DELETE * FROM origin_types;".

Definition sql_clear_resource_types : string := "DELETE * FROM resource_types;".

Definition sql_resourceNeedsUpdating : string :=
  "SELECT timestamp" ++ nl ++
  "FROM   versioned_resources" ++ nl ++
  "WHERE  resource_id = :resource_id" ++ nl ++
  "AND    version = (SELECT MAX(version)" ++ nl ++
  "                  FROM   versioned_resources" ++ nl ++
  "                  WHERE  resource_id = :resource_id);".

Definition sql_addResourceVersion_insert : string :=
  "INSERT INTO versioned_resources " ++ nl ++
  "(resource_id, storage_id, version, location, timestamp, deleted, checksum)" ++ nl ++
  "VALUES" ++ nl ++
  "( :resource_id" ++ nl ++
  ", (SELECT id FROM storages " ++ nl ++
  "      WHERE location = :storage_location)" ++ nl ++
  ", (SELECT MAX(version) + 1 FROM versioned_resources" ++ nl ++
  "      WHERE  resource_id = :resource_id)" ++ nl ++
  ", :location, :timestamp, 0, :checksum" ++ nl ++
  ");".

Definition sql_addResourceVersion_update : string :=
  "UPDATE resources" ++ nl ++
  "SET name = :name" ++ nl ++
  ", filename = :filename" ++ nl ++
  ", tooltip = :tooltip" ++ nl ++
  ", thumbnail = :thumbnail)" ++ nl ++
  "WHERE resourceId = :resourceId".

Definition sql_addResource_insert : string :=
  "INSERT INTO resources " ++
  "(resource_type_id, name, filename, tooltip, thumbnail, status)" ++
  "VALUES" ++
  "((SELECT id FROM resource_types WHERE name = :resource_type), :name, :filename, :tooltip, :thumbnail, :status);".

Definition sql_addResource_version : string :=
  "INSERT INTO versioned_resources " ++
  "(resource_id, storage_id, version, location, timestamp, deleted, checksum)" ++
  "VALUES" ++
  "(:resource_id" ++
  ",    (SELECT id FROM storages " ++
  "      WHERE location = :storage_location)" ++
  ", 1" ++
  ", :location" ++
  ", :timestamp" ++
  ", 0" ++
  ", :checksum" ++
  ");".

Definition sql_tagResource : string :=
  "INSERT INTO resource_tags" ++ nl ++
  "(resource_id, tag_id)" ++ nl ++
  "VALUES" ++ nl ++
  "(:resource_id, :tag_id);".

Definition sql_addTag : string :=
  "INSERT INTO tags" ++ nl ++
  "( url, name, comment, resource_type_id, active)" ++ nl ++
  "VALUES" ++ nl ++
  "( :url" ++ nl ++
  ", :name" ++ nl ++
  ", :comment" ++ nl ++
  ", (SELECT id" ++ nl ++
  "   FROM   resource_types" ++ nl ++
  "   WHERE  name = :resource_type)" ++ nl ++
  ", 1" ++
  ");".

Definition sql_addStorage_select : string :=
  "SELECT * FROM storages WHERE location = :location".

Definition sql_addStorage_insert : string :=
  "INSERT INTO storages " ++
  "(origin_type_id, location, timestamp, pre_installed, active)" ++
  "VALUES" ++
  "(:origin_type_id, :location, :timestamp, :pre_installed, :active);".

Definition sql_deleteStorage_resources : string :=
  "DELETE FROM resources" ++
  "WHERE resource_id IN (SELECT versioned_resources.resource_id" ++ nl ++
  "                      WHERE  versioned_resources.storage_id = (SELECT storages.storage_id" ++ nl ++
  "                                                              WHERE storages.location = :location)" ++ nl ++
  "                     );".

Definition sql_deleteStorage_versions : string :=
  "DELETE FROM versioned_resources" ++
  "WHERE storage_id = (SELECT storages.storage_id" ++ nl ++
  "                    WHERE storages.location = :location);".

Definition sql_deleteStorage_storage : string :=
  "DELETE FROM storages" ++
  "WHERE location = :location);".

Definition sql_synchronizeStorage : string :=
  "SELECT timestamp" ++ nl ++
  ",      pre_installed" ++ nl ++
  "FROM   storages" ++ nl ++
  "WHERE  location = :location" ++ nl.

(** ** What SQLite refuses on sight

    [sqlite3_prepare] parses the whole text.  [wellFormedSql] checks two
    things every statement the parser accepts satisfies: parentheses are
    balanced, and [DELETE] is followed by [FROM], a table name and then a
    [WHERE] clause (or one of the few other continuations of the grammar)
    or the end of the statement.  A text failing it cannot be prepared. *)

Definition isSpace (c : ascii) : bool :=
  let n := nat_of_ascii c in
  ((n =? 32) || (n =? 9) || (n =? 10) || (n =? 13))%nat.

Definition isPunctuation (c : ascii) : bool :=
  let n := nat_of_ascii c in
  ((n =? 40) || (n =? 41) || (n =? 44) || (n =? 59))%nat.

Definition flush (word : string) : list string :=
  match word with EmptyString => [] | _ => [word] end.

(** Words are separated by white space; [( ) , ;] are words of their own. *)
Fixpoint tokenize (word : string) (text : string) : list string :=
  match text with
  | EmptyString => flush word
  | String c rest =>
      if isSpace c then flush word ++ tokenize EmptyString rest
      else if isPunctuation c
           then flush word ++ String c EmptyString :: tokenize EmptyString rest
           else tokenize (word ++ String c EmptyString) rest
  end.

Fixpoint balanced (depth : nat) (words : list string) : bool :=
  match words with
  | [] => (depth =? 0)%nat
  | w :: rest =>
      if (w =? "(")%string then balanced (S depth) rest
      else if (w =? ")")%string
           then match depth with O => false | S d => balanced d rest end
           else balanced depth rest
  end.

Definition afterDeleteTable (words : list string) : bool :=
  match words with
  | [] => true
  | w :: _ =>
      contains ["WHERE"; ";"; "AS"; "INDEXED"; "NOT"; "RETURNING"; "ORDER"; "LIMIT"] w
  end.

Definition deleteHeadOk (words : list string) : bool :=
  match words with
  | verb :: rest =>
      if (verb =? "DELETE")%string
      then match rest with
           | from :: _ :: more => (from =? "FROM")%string && afterDeleteTable more
           | _ => false
           end
      else true
  | [] => false
  end.

Definition wellFormedSql (text : string) : bool :=
  let words := tokenize EmptyString text in
  balanced 0 words && deleteHeadOk words.

(** ** Statements

    One constructor per statement of the source file, carrying the values
    the source binds to it. *)

Inductive Statement :=
| GetVersionInformation
| CreateTable (table : string)
| CreateIndex (index : string)
| ClearOriginTypes
| ClearResourceTypes
| FillOriginTypes (originType : string)
| FillResourceTypes (resourceType : string)
| FillVersionInformation (schemaVersion kritaVersion creationDate : string)
| SelectResourceId (filename resourceType : string)
| SelectLatestTimestamp (resourceId : Z)
| InsertNextVersion (resourceId : Z) (storageLocation location : string)
                    (timestamp : Z) (checksum : string)
| UpdateResource (name filename tooltip thumbnail : string) (resourceId : Z)
| InsertResource (resourceType name filename tooltip thumbnail : string)
                 (status : Z)
| InsertFirstVersion (resourceId : Z) (storageLocation location : string)
                     (timestamp : Z) (checksum : string)
| SelectTag (url resourceType : string)
| InsertResourceTag (resourceId tagId : Z)
| InsertTag (url name comment resourceType : string)
| SelectStorage (location : string)
| InsertStorage (originTypeId : Z) (location : string)
                (timestamp preInstalled active : Z)
| DeleteStorageResources (location : string)
| DeleteStorageVersions (location : string)
| DeleteStorageRow (location : string)
| SelectStorageTimestamp (location : string).

(** The text the source hands to the engine; [None] when the text is read
    from a Qt resource file ([:/<name>.sql]), which is not in the sources. *)
Definition sqlText (s : Statement) : option string :=
  match s with
  | ClearOriginTypes => Some sql_clear_origin_types
  | ClearResourceTypes => Some sql_clear_resource_types
  | SelectLatestTimestamp _ => Some sql_resourceNeedsUpdating
  | InsertNextVersion _ _ _ _ _ => Some sql_addResourceVersion_insert
  | UpdateResource _ _ _ _ _ => Some sql_addResourceVersion_update
  | InsertResource _ _ _ _ _ _ => Some sql_addResource_insert
  | InsertFirstVersion _ _ _ _ _ => Some sql_addResource_version
  | InsertResourceTag _ _ => Some sql_tagResource
  | InsertTag _ _ _ _ => Some sql_addTag
  | SelectStorage _ => Some sql_addStorage_select
  | InsertStorage _ _ _ _ _ => Some sql_addStorage_insert
  | DeleteStorageResources _ => Some sql_deleteStorage_resources
  | DeleteStorageVersions _ => Some sql_deleteStorage_versions
  | DeleteStorageRow _ => Some sql_deleteStorage_storage
  | SelectStorageTimestamp _ => Some sql_synchronizeStorage
  | _ => None
  end.

Definition wellFormed (s : Statement) : bool :=
  match sqlText s with
  | Some text => wellFormedSql text
  | None => true
  end.

(** The tables a statement reads or writes; they must exist. *)
Definition tablesOf (s : Statement) : list string :=
  match s with
  | GetVersionInformation => ["version_information"]
  | CreateTable _ => []
  | CreateIndex index => [index]
  | ClearOriginTypes => ["origin_types"]
  | ClearResourceTypes => ["resource_types"]
  | FillOriginTypes _ => ["origin_types"]
  | FillResourceTypes _ => ["resource_types"]
  | FillVersionInformation _ _ _ => ["version_information"]
  | SelectResourceId _ _ => ["resources"; "resource_types"]
  | SelectLatestTimestamp _ => ["versioned_resources"]
  | InsertNextVersion _ _ _ _ _ => ["versioned_resources"; "storages"]
  | UpdateResource _ _ _ _ _ => ["resources"]
  | InsertResource _ _ _ _ _ _ => ["resources"; "resource_types"]
  | InsertFirstVersion _ _ _ _ _ => ["versioned_resources"; "storages"]
  | SelectTag _ _ => ["tags"; "resource_types"]
  | InsertResourceTag _ _ => ["resource_tags"]
  | InsertTag _ _ _ _ => ["tags"; "resource_types"]
  | SelectStorage _ => ["storages"]
  | InsertStorage _ _ _ _ _ => ["storages"]
  | DeleteStorageResources _ => ["resources"; "versioned_resources"; "storages"]
  | DeleteStorageVersions _ => ["versioned_resources"; "storages"]
  | DeleteStorageRow _ => ["storages"]
  | SelectStorageTimestamp _ => ["storages"]
  end.

(** ** Queries and scalar subqueries *)

Definition optEqb (a : option Z) (b : Z) : bool :=
  match a with Some x => x =? b | None => false end.

(** [(SELECT id FROM storages WHERE location = :storage_location)] *)
Definition storageIdAt (d : DB) (location : string) : option Z :=
  match filter (fun r => (sr_location r =? location)%string) (storages d) with
  | r :: _ => Some (sr_id r)
  | [] => None
  end.

(** [(SELECT id FROM resource_types WHERE name = :resource_type)] *)
Definition resourceTypeId (d : DB) (resourceType : string) : option Z :=
  match filter (fun r => (lk_name r =? resourceType)%string) (resource_types d) with
  | r :: _ => Some (lk_id r)
  | [] => None
  end.

Definition versionsOf (d : DB) (resourceId : Z) : list VersionedResourceRow :=
  filter (fun r => vr_resource_id r =? resourceId) (versioned_resources d).

(** SQL [MAX] skips NULL and is NULL over no value at all. *)
Definition maxOpt (a b : option Z) : option Z :=
  match a, b with
  | Some x, Some y => Some (Z.max x y)
  | Some x, None => Some x
  | None, _ => b
  end.

(** [(SELECT MAX(version) FROM versioned_resources WHERE resource_id = :resource_id)] *)
Definition maxVersion (d : DB) (resourceId : Z) : option Z :=
  fold_right (fun r acc => maxOpt (vr_version r) acc) None (versionsOf d resourceId).

(** The rows of the statement of [resourceNeedsUpdating]; a NULL on either
    side of [=] selects nothing. *)
Definition select_latest_timestamp (d : DB) (resourceId : Z) : list Z :=
  map vr_timestamp
      (filter (fun r => match vr_version r, maxVersion d resourceId with
                        | Some v, Some m => v =? m
                        | _, _ => false
                        end)
              (versionsOf d resourceId)).

Definition hasResourceType (d : DB) (resourceType : string) (typeId : option Z) : bool :=
  existsb (fun t => (lk_name t =? resourceType)%string && optEqb typeId (lk_id t))
          (resource_types d).

(** Modelled from the spec: [select_resource_id.sql] is not part of the
    sources; it is the "exact lookup by (filename, resource_type)", the type
    being given by name and stored in the row as [resource_type_id]. *)
Definition select_resource_id (d : DB) (filename resourceType : string) : list Z :=
  map rr_id
      (filter (fun r => (rr_filename r =? filename)%string
                        && hasResourceType d resourceType (rr_resource_type_id r))
              (resources d)).

(** Modelled from the spec: [select_tag.sql] is not part of the sources; it
    is the "existence check by (url, resourceType)" and yields the tag id. *)
Definition select_tag (d : DB) (url resourceType : string) : list Z :=
  map tr_id
      (filter (fun r => (tr_url r =? url)%string
                        && hasResourceType d resourceType (tr_resource_type_id r))
              (tags d)).

Definition select_storage (d : DB) (location : string) : list StorageRow :=
  filter (fun r => (sr_location r =? location)%string) (storages d).

(** Modelled from the spec: [get_version_information.sql] is not part of the
    sources; it reads schema version, creator version and creation date. *)
Definition select_version_information (d : DB) : list VersionInformationRow :=
  version_information d.

(** ** The effect of a statement the engine carries out

    Modelled from the spec: the scripts [create_<table>.sql],
    [create_index_<index>.sql] and [fill_<table>.sql] are not part of the
    sources; creating makes the table known, filling appends one row.  The
    statements of [deleteStorage] and the [UPDATE] of [addResourceVersion]
    get the effect their text aims at; the engine never carries them out
    (see [wellFormed]). *)
Definition effect (s : Statement) (d : DB) : DB :=
  match s with
  | CreateTable table =>
      if contains (dbTables d) table then d
      else set_dbTables d (dbTables d ++ [table])
  | ClearOriginTypes => set_origin_types d []
  | ClearResourceTypes => set_resource_types d []
  | FillOriginTypes name =>
      set_origin_types d
        (origin_types d ++ [mkLookup (nextId (map lk_id (origin_types d))) name])
  | FillResourceTypes name =>
      set_resource_types d
        (resource_types d ++ [mkLookup (nextId (map lk_id (resource_types d))) name])
  | FillVersionInformation v k c =>
      set_version_information d (version_information d ++ [mkVersionInformation v k c])
  | InsertNextVersion resourceId storageLocation location timestamp checksum =>
      set_versioned_resources d
        (versioned_resources d ++
         [mkVersionedRow resourceId (storageIdAt d storageLocation)
                         (option_map (fun m => m + 1) (maxVersion d resourceId))
                         location timestamp 0 checksum])
  | UpdateResource name filename tooltip thumbnail resourceId =>
      set_resources d
        (map (fun r => if rr_id r =? resourceId
                       then mkResourceRow (rr_id r) (rr_resource_type_id r)
                                          name filename tooltip thumbnail (rr_status r)
                       else r)
             (resources d))
  | InsertResource resourceType name filename tooltip thumbnail status =>
      set_resources d
        (resources d ++
         [mkResourceRow (nextId (map rr_id (resources d)))
                        (resourceTypeId d resourceType)
                        name filename tooltip thumbnail status])
  | InsertFirstVersion resourceId storageLocation location timestamp checksum =>
      set_versioned_resources d
        (versioned_resources d ++
         [mkVersionedRow resourceId (storageIdAt d storageLocation) (Some 1)
                         location timestamp 0 checksum])
  | InsertResourceTag resourceId tagId =>
      set_resource_tags d (resource_tags d ++ [mkResourceTag resourceId tagId])
  | InsertTag url name comment resourceType =>
      set_tags d
        (tags d ++
         [mkTagRow (nextId (map tr_id (tags d))) url name comment
                   (resourceTypeId d resourceType) 1])
  | InsertStorage originTypeId location timestamp preInstalled active =>
      set_storages d
        (storages d ++
         [mkStorageRow (nextId (map sr_id (storages d))) originTypeId location
                       timestamp preInstalled active])
  | DeleteStorageResources location =>
      set_resources d
        (filter (fun r =>
                   negb (existsb (fun v => (vr_resource_id v =? rr_id r)
                                           && match vr_storage_id v, storageIdAt d location with
                                              | Some a, Some b => a =? b
                                              | _, _ => false
                                              end)
                                 (versioned_resources d)))
                (resources d))
  | DeleteStorageVersions location =>
      set_versioned_resources d
        (filter (fun v => negb match vr_storage_id v, storageIdAt d location with
                               | Some a, Some b => a =? b
                               | _, _ => false
                               end)
                (versioned_resources d))
  | DeleteStorageRow location =>
      set_storages d
        (filter (fun r => negb (sr_location r =? location)%string) (storages d))
  | GetVersionInformation | CreateIndex _ | SelectResourceId _ _
  | SelectLatestTimestamp _ | SelectTag _ _ | SelectStorage _
  | SelectStorageTimestamp _ => d
  end.

(** ** Collaborators: storages, resources, tags *)

(** [KisResourceStorage::StorageType]; the source names [Folder] only, the
    other kinds are those of [storageTypes]. *)
Inductive StorageType :=
| Unknown | Folder | Bundle | AdobeBrushLibrary | AdobeStyleLibrary.

Definition isFolder (t : StorageType) : bool :=
  match t with Folder => true | _ => false end.

(** What the cache reads of a [KoResource]. *)
Record KoResource := mkResource {
  res_valid : bool;
  res_name : string;
  res_filename : string;
  res_md5 : string;
  res_image : string   (* the thumbnail, as the bytes of its PNG encoding *)
}.

(** [KoResourceSP] may be null. *)
Definition KoResourceSP := option KoResource.

(** One position of a [KisResourceStorage::ResourceIterator]. *)
Record ResourceItem := mkResourceItem {
  ri_resource : KoResourceSP;
  ri_lastModified : QDateTime;
  ri_type : string
}.

Record KisTag := mkTag {
  tag_url : string;
  tag_defaultResources : list string
}.

(** One position of a [KisResourceStorage::TagIterator]. *)
Record TagItem := mkTagItem {
  ti_url : string;
  ti_name : string;
  ti_comment : string;
  ti_tag : KisTag
}.

Record KisResourceStorage := mkStorage {
  storage_location : string;
  storage_type : StorageType;
  storage_timestamp : QDateTime;
  storage_resources : string -> list ResourceItem;
  storage_tags : string -> list TagItem
}.

(** ** The environment *)

Record Env := mkEnv {
  (** [QFile(path).open(QFile::ReadOnly)] on a Qt resource path *)
  fileOpens : string -> bool;
  (** [db.open()] on the database of that name *)
  dbOpens : string -> bool;
  (** the engine refuses to prepare, or to carry out, a statement it could
      parse: a missing column, a constraint, an input/output error *)
  refusesPrepare : Statement -> DB -> bool;
  refusesExec : Statement -> DB -> bool;
  (** [db.lastError()] after a failed [open] ([None]) or a failed statement *)
  lastErrorAfter : option Statement -> QSqlError;
  (** [KisResourceLoaderRegistry::instance()->resourceTypes()] *)
  resourceTypes : list string;
  (** [KritaVersionWrapper::versionString()] *)
  versionString : string;
  (** [QDateTime::currentDateTimeUtc().toString()] *)
  currentDateTimeUtc : string;
  i18n : string -> string;
  (** [static_cast<int>] of a [StorageType]; the enumeration is declared in
      [KisResourceStorage.h] *)
  storageTypeValue : StorageType -> Z
}.

(** ** The process state *)

Record State := mkState {
  s_valid : bool;
  (** [QSqlDatabase::connectionNames()] *)
  connectionNames : list string;
  (** whether the default connection is open *)
  isOpen : bool;
  (** the database file the default connection is, or will be, bound to *)
  db : DB
}.

Definition set_s_valid (st : State) (v : bool) : State :=
  mkState v (connectionNames st) (isOpen st) (db st).

Definition set_db (st : State) (d : DB) : State :=
  mkState (s_valid st) (connectionNames st) (isOpen st) d.

(** The state of a process that has not called [initialize] yet. *)
Definition startState (d : DB) : State := mkState false [] false d.

(** A [qWarning] line written unless [ok] holds. *)
Definition warnUnless (ok : bool) (message : string) : list string :=
  if ok then [] else [message].

(** ** The operations *)

Section Cache.

Variable env : Env.

(** [QSqlQuery::prepare]: the connection is open, SQLite can parse the
    text, the tables exist and the engine has no other objection. *)
Definition prepare (st : State) (s : Statement) : bool :=
  isOpen st && wellFormed s
  && forallb (contains (dbTables (db st))) (tablesOf s)
  && negb (refusesPrepare env s (db st)).

(** Whether [QSqlQuery::exec] succeeds; a statement that could not be
    prepared cannot be carried out either. *)
Definition query (st : State) (s : Statement) : bool :=
  prepare st s && negb (refusesExec env s (db st)).

(** [QSqlQuery::exec] with its effect on the database. *)
Definition exec (st : State) (s : Statement) : bool * State :=
  if query st s then (true, set_db st (effect s (db st))) else (false, st).

(** [QSqlQuery::size]: [-1] for a query that is not active or a driver
    that does not report sizes. *)
Definition size (driver : string) (active : bool) (rows : nat) : Z :=
  if active && hasFeature_QuerySize driver then Z.of_nat rows else -1.

(** The block of [initDb] that verifies the version number.  [None]: the
    block returns the error "Could not open get_version_information.sql";
    [Some b]: the block ends with [schemaIsOutDated = b]. *)
Definition schemaIsOutDated (driver : string) (st : State) : option bool :=
  if contains (dbTables (db st)) "version_information" then
    if fileOpens env ":/get_version_information.sql" then
      let active := query st GetVersionInformation in
      let rows := if active then select_version_information (db st) else [] in
      if size driver active (List.length rows) >? 0 then
        match rows with
        | r :: _ =>
            let schemaVersion := vi_database_version r in
            Some (negb (schemaVersion =? databaseVersion)%string)
        | [] => Some false
        end
      else Some false
    else None
  else Some false.

(** A loop of [initDb] over scripts; [Some e] when the body returns [e]. *)
Fixpoint createTables (names : list string) (st : State) : option QSqlError * State :=
  match names with
  | [] => (None, st)
  | table :: rest =>
      if fileOpens env (":/create_" ++ table ++ ".sql") then
        let (ok, st1) := exec st (CreateTable table) in
        if negb ok then (Some (lastErrorAfter env (Some (CreateTable table))), st1)
        else createTables rest st1
      else
        (Some (mkError "Error executing SQL"
                       ("Could not find SQL file " ++ table) StatementError), st)
  end.

Fixpoint createIndexes (names : list string) (st : State) : option QSqlError * State :=
  match names with
  | [] => (None, st)
  | index :: rest =>
      if fileOpens env (":/create_index_" ++ index ++ ".sql") then
        let (ok, st1) := exec st (CreateIndex index) in
        if negb ok then (Some (lastErrorAfter env (Some (CreateIndex index))), st1)
        else createIndexes rest st1
      else
        (Some (mkError "Error executing SQL"
                       ("Could not find SQL file " ++ index) StatementError), st)
  end.

Fixpoint fillLookup (fill : string -> Statement) (names : list string) (st : State)
  : option QSqlError * State :=
  match names with
  | [] => (None, st)
  | n :: rest =>
      let (ok, st1) := exec st (fill n) in
      if negb ok then (Some (lastErrorAfter env (Some (fill n))), st1)
      else fillLookup fill rest st1
  end.

Definition defaultConnection : string := "qt_sql_default_connection".

Definition initDb (location : string) (st : State) : QSqlError * State :=
  if negb (match connectionNames st with [] => true | _ => false end) then
    (noError, st)                       (* Already connected *)
  else
    (* QSqlDatabase::addDatabase(dbDriver) *)
    let st := mkState (s_valid st) [defaultConnection] false (db st) in
    if negb (dbOpens env (location ++ "/" ++ resourceCacheDbFilename)) then
      (lastErrorAfter env None, st)
    else
      let st := mkState (s_valid st) (connectionNames st) true (db st) in
      let dbTables0 := dbTables (db st) in
      let allTablesPresent := forallb (contains dbTables0) tables in
      match schemaIsOutDated dbDriver st with
      | None =>
          (mkError "Error executing SQL"
                   "Could not open get_version_information.sql" StatementError, st)
      | Some outdated =>
          if allTablesPresent && negb outdated then (noError, st)
          else
            match createTables tables st with
            | (Some e, st) => (e, st)
            | (None, st) =>
            match createIndexes indexes st with
            | (Some e, st) => (e, st)
            | (None, st) =>
            (* Fill lookup tables *)
            let st := if contains dbTables0 "origin_types"
                      then snd (exec st ClearOriginTypes) else st in
            if negb (fileOpens env ":/fill_origin_types.sql") then
              (mkError "Error executing SQL"
                       "Could not find SQL fill_origin_types.sql." StatementError, st)
            else
            match fillLookup FillOriginTypes storageTypes st with
            | (Some e, st) => (e, st)
            | (None, st) =>
            let st := if contains dbTables0 "resource_types"
                      then snd (exec st ClearResourceTypes) else st in
            if negb (fileOpens env ":/fill_resource_types.sql") then
              (mkError "Error executing SQL"
                       "Could not find SQL fill_resource_types.sql." StatementError, st)
            else
            match fillLookup FillResourceTypes (resourceTypes env) st with
            | (Some e, st) => (e, st)
            | (None, st) =>
            if negb (fileOpens env ":/fill_version_information.sql") then
              (mkError "Error executing SQL"
                       "Could not find SQL fill_version_information.sql." StatementError, st)
            else
              let fill := FillVersionInformation databaseVersion (versionString env)
                                                 (currentDateTimeUtc env) in
              let (ok, st1) := exec st fill in
              if negb ok then (lastErrorAfter env (Some fill), st1)
              else (noError, st1)
            end end end end
      end.

Definition initialize (location : string) (st : State) : bool * State :=
  let (err, st1) := initDb location st in
  let v := negb (isValid err) in
  (v, set_s_valid st1 v).

Definition resourceIdForResource (resourceFileName resourceType : string)
           (st : State) : Z :=
  let s := SelectResourceId resourceFileName resourceType in
  (* the result of f.open is not looked at; an empty text is not prepared *)
  if negb (fileOpens env ":/select_resource_id.sql" && prepare st s) then -1
  else if negb (query st s) then -1
  else match select_resource_id (db st) resourceFileName resourceType with
       | [] => -1
       | id :: _ => toInt (Some id)
       end.

(** The second component is what the function writes to the log. *)
Definition resourceNeedsUpdating (resourceId : Z) (timestamp : QDateTime)
           (st : State) : bool * list string :=
  let s := SelectLatestTimestamp resourceId in
  if negb (prepare st s) then
    (false, ["Could not prepare resourceNeedsUpdating statement"])
  else if negb (query st s) then
    (false, ["Could not query for the most recent timestamp"])
  else
    match select_latest_timestamp (db st) resourceId with
    | [] =>
        (false, ["Inconsistent database: could not find a version for resource with Id"])
    | t :: _ =>
        let resourceTimeStamp : QVariant := Some t in
        if negb (isValidVariant resourceTimeStamp) then
          (false, ["Could not retrieve timestamp from versioned_resources"])
        else (toSecsSinceEpoch timestamp >? toInt resourceTimeStamp, [])
    end.

Definition addResourceVersion (resourceId : Z) (timestamp : QDateTime)
           (storage : KisResourceStorage) (resource : KoResource)
           (st : State) : bool * State :=
  (* Create the new version *)
  let ins := InsertNextVersion resourceId (storage_location storage)
                               (res_filename resource)
                               (toSecsSinceEpoch timestamp) (res_md5 resource) in
  if negb (prepare st ins) then (false, st) else
  let (r, st1) := exec st ins in
  if negb r then (false, st1) else
  (* Update the resource itself *)
  let upd := UpdateResource (res_name resource) (res_filename resource)
                            (i18n env (res_name resource)) (res_image resource)
                            resourceId in
  if negb (prepare st1 upd) then (false, st1) else
  exec st1 upd.

Definition addResource (storage : KisResourceStorage) (timestamp : QDateTime)
           (resource : KoResourceSP) (resourceType : string)
           (st : State) : bool * State :=
  if negb (s_valid st) then (false, st) else
  match resource with
  | None => (false, st)
  | Some res =>
      if negb (res_valid res) then (false, st) else
      (* Check whether it already exists *)
      let resourceId := resourceIdForResource (res_filename res) resourceType st in
      let '(returned, st1) :=
        if resourceId >? -1 then
          if fst (resourceNeedsUpdating resourceId timestamp st)
          then (None, snd (addResourceVersion resourceId timestamp storage res st))
          else (None, st)
        else
          let ins := InsertResource resourceType (res_name res) (res_filename res)
                                    (i18n env (res_name res)) (res_image res) 1 in
          if negb (prepare st ins) then (Some false, st) else
          let (r, st') := exec st ins in
          if negb r then (Some false, st') else (None, st')
      in
      match returned with
      | Some r => (r, st1)
      | None =>
          (* Then add a new version *)
          let ver := InsertFirstVersion resourceId (storage_location storage)
                                        (res_filename res)
                                        (toSecsSinceEpoch timestamp) (res_md5 res) in
          if negb (prepare st1 ver) then (false, st1) else
          exec st1 ver
      end
  end.

(** The loop over a resource iterator, shared by [addResources] and the
    folder branch of [synchronizeStorage].  The log holds the warnings of
    the loop itself, one for each item [addResource] fails on; the line
    [addResource] writes on its own before it returns false is not part of
    it. *)
Fixpoint addResourceItems (storage : KisResourceStorage) (items : list ResourceItem)
         (st : State) : State * list string :=
  match items with
  | [] => (st, [])
  | item :: rest =>
      match ri_resource item with
      | Some res =>
          let (r, st1) := addResource storage (ri_lastModified item) (Some res)
                                      (ri_type item) st in
          let (st2, log) := addResourceItems storage rest st1 in
          (st2, app (warnUnless r ("Could not add resource " ++ res_filename res
                                   ++ " to the database")) log)
      | None => addResourceItems storage rest st
      end
  end.

Definition addResources (storage : KisResourceStorage) (resourceType : string)
           (st : State) : bool * State * list string :=
  let (st1, log) := addResourceItems storage (storage_resources storage resourceType) st in
  (true, st1, log).

Definition tagResource (storage : KisResourceStorage) (resourceName : string)
           (tag : KisTag) (resourceType : string) (st : State) : bool * State :=
  (* Get resource id *)
  let resourceId :=
    resourceIdForResource
      (storage_location storage ++ "/" ++ resourceType ++ "/" ++ resourceName)
      resourceType st in
  if resourceId <? 0 then (false, st) else
  (* Get tag id; [None] when the block returns false *)
  let tagId : option Z :=
    if fileOpens env ":/select_tag.sql" then
      let s := SelectTag (tag_url tag) resourceType in
      if negb (prepare st s) then None
      else if negb (query st s) then None
      else match select_tag (db st) (tag_url tag) resourceType with
           | [] => None
           | id :: _ => Some (toInt (Some id))
           end
    else Some (-1) in
  match tagId with
  | None => (false, st)
  | Some tagId =>
      let ins := InsertResourceTag resourceId tagId in
      if negb (prepare st ins) then (false, st) else
      let (r, st1) := exec st ins in
      if negb r then (false, st1) else (true, st1)
  end.

Definition hasTag (url resourceType : string) (st : State) : bool :=
  if fileOpens env ":/select_tag.sql" then
    let s := SelectTag url resourceType in
    if negb (prepare st s) then false
    else if query st s
         then match select_tag (db st) url resourceType with
              | [] => false
              | _ :: _ => true
              end
         else false
  else false.

Definition addTag (resourceType url name comment : string) (st : State)
  : bool * State :=
  if hasTag url resourceType st then (true, st) else
  let ins := InsertTag url name comment resourceType in
  if negb (prepare st ins) then (false, st) else
  (* a failing exec is logged only *)
  (true, snd (exec st ins)).

Fixpoint tagResources (storage : KisResourceStorage) (resourceNames : list string)
         (tag : KisTag) (resourceType : string) (st : State) : State * list string :=
  match resourceNames with
  | [] => (st, [])
  | resourceName :: rest =>
      let (r, st1) := tagResource storage resourceName tag resourceType st in
      let (st2, log) := tagResources storage rest tag resourceType st1 in
      (st2, app (warnUnless r ("Could not tag resource " ++ resourceName)) log)
  end.

Fixpoint addTagItems (storage : KisResourceStorage) (resourceType : string)
         (items : list TagItem) (st : State) : State * list string :=
  match items with
  | [] => (st, [])
  | item :: rest =>
      let (r, st1) := addTag resourceType (ti_url item) (ti_name item)
                             (ti_comment item) st in
      let (st2, log2) := tagResources storage (tag_defaultResources (ti_tag item))
                                      (ti_tag item) resourceType st1 in
      let (st3, log3) := addTagItems storage resourceType rest st2 in
      (st3, app (warnUnless r ("Could not add tag " ++ ti_url item)) (app log2 log3))
  end.

Definition addTags (storage : KisResourceStorage) (resourceType : string)
           (st : State) : bool * State * list string :=
  let (st1, log) := addTagItems storage resourceType
                                (storage_tags storage resourceType) st in
  (true, st1, log).

Definition addStorage (storage : KisResourceStorage) (preinstalled : bool)
           (st : State) : bool * State :=
  if negb (s_valid st) then (false, st) else
  let sel := SelectStorage (storage_location storage) in
  (* the result of q.prepare is overwritten by that of q.exec *)
  if negb (query st sel) then (false, st) else
  match select_storage (db st) (storage_location storage) with
  | _ :: _ => (true, st)               (* This storage already exists *)
  | [] =>
      let ins := InsertStorage (storageTypeValue env (storage_type storage))
                               (storage_location storage)
                               (toMSecsSinceEpoch (storage_timestamp storage))
                               (if preinstalled then 1 else 0) 1 in
      if negb (prepare st ins) then (false, st) else
      exec st ins
  end.

Definition deleteStorage (storage : KisResourceStorage) (st : State)
  : bool * State :=
  let s1 := DeleteStorageResources (storage_location storage) in
  if negb (prepare st s1) then (false, st) else
  let (r1, st1) := exec st s1 in
  if negb r1 then (false, st1) else
  let s2 := DeleteStorageVersions (storage_location storage) in
  if negb (prepare st1 s2) then (false, st1) else
  let (r2, st2) := exec st1 s2 in
  if negb r2 then (false, st2) else
  let s3 := DeleteStorageRow (storage_location storage) in
  if negb (prepare st2 s3) then (false, st2) else
  let (r3, st3) := exec st2 s3 in
  if negb r3 then (false, st3) else
  (true, st3).

(** The loop of the folder branch over the registered resource types. *)
Fixpoint synchronizeFolder (storage : KisResourceStorage) (types : list string)
         (st : State) : State * list string :=
  match types with
  | [] => (st, [])
  | resourceType :: rest =>
      let (st1, log1) :=
        addResourceItems storage (storage_resources storage resourceType) st in
      let (st2, log2) := synchronizeFolder storage rest st1 in
      (st2, app log1 log2)
  end.

Definition synchronizeStorage (storage : KisResourceStorage) (st : State)
  : bool * State * list string :=
  if negb (s_valid st) then
    (false, st, ["KisResourceCacheDb::addResource: The database is not valid"])
  else if negb (isFolder (storage_type storage)) then
    (* Only check the time stamp for container storages, not the contents *)
    let sel := SelectStorageTimestamp (storage_location storage) in
    let log1 := warnUnless (prepare st sel)
                           "Could not prepare storage timestamp statement" in
    let active := query st sel in
    let log2 := warnUnless active
                           "Could not execute storage timestamp statement" in
    let rows := if active then select_storage (db st) (storage_location storage)
                else [] in
    (* q.first(); without a row this is a new storage *)
    let st1 := match rows with
               | [] => snd (addStorage storage false st)
               | _ :: _ => st
               end in
    let value0 : QVariant :=
      match rows with r :: _ => Some (sr_timestamp r) | [] => None end in
    let value1 : QVariant :=
      match rows with r :: _ => Some (sr_pre_installed r) | [] => None end in
    let log3 := warnUnless (isValidVariant value0)
                           "Could not retrieve timestamp for storage" in
    if toSecsSinceEpoch (storage_timestamp storage) >? toInt value0 then
      let (rd, st2) := deleteStorage storage st1 in
      let log4 := warnUnless rd "Could not delete storage" in
      let (ra, st3) := addStorage storage (toBool value1) st2 in
      let log5 := warnUnless ra "Could not add storage" in
      (true, st3, List.concat [log1; log2; log3; log4; log5])
    else (true, st1, List.concat [log1; log2; log3])
  else
    let (st1, log) := synchronizeFolder storage (resourceTypes env) st in
    (true, st1, log).

End Cache.

(** ** A working installation, for the concrete runs *)

Definition storageTypeCode (t : StorageType) : Z :=
  match t with
  | Unknown => 1 | Folder => 2 | Bundle => 3
  | AdobeBrushLibrary => 4 | AdobeStyleLibrary => 5
  end.

(** Every resource file opens, the database opens, and the engine carries
    out whatever it can parse. *)
Definition workingEnv : Env :=
  mkEnv (fun _ => true) (fun _ => true) (fun _ _ => false) (fun _ _ => false)
        (fun _ => mkError "driver" "database" UnknownError)
        ["brushes"; "patterns"] "4.2.0" "Mon Jan 1 00:00:00 2018 GMT"
        (fun s => s) storageTypeCode.

(** As [workingEnv], but [:/fill_version_information.sql] is missing from
    the compiled-in resources. *)
Definition incompleteEnv : Env :=
  mkEnv (fun path => negb (path =? ":/fill_version_information.sql")%string)
        (fun _ => true) (fun _ _ => false) (fun _ _ => false)
        (fun _ => mkError "driver" "database" UnknownError)
        ["brushes"; "patterns"] "4.2.0" "Mon Jan 1 00:00:00 2018 GMT"
        (fun s => s) storageTypeCode.

Definition cacheLocation : string := "/home/user/.local/share/krita".

(** The cache right after its first initialization. *)
Definition freshCache : State :=
  snd (initialize workingEnv cacheLocation (startState emptyDB)).

Definition folderStorage : KisResourceStorage :=
  mkStorage "/home/user/resources" Folder 5000 (fun _ => []) (fun _ => []).

Definition bundleStorage (timestamp : QDateTime) : KisResourceStorage :=
  mkStorage "/home/user/resources/extra.bundle" Bundle timestamp
            (fun _ => []) (fun _ => []).

Definition brush (checksum : string) : KoResource :=
  mkResource true "Basic tip" "basic_tip.gbr" checksum "PNG".

(** [folderStorage] registered and the brush added twice, last modified at
    second 100: the resource row has id 1, the first version row went to
    resource id -1, the second to resource id 1. *)
Definition cacheWithBrush : State :=
  let st1 := snd (addStorage workingEnv folderStorage false freshCache) in
  let st2 := snd (addResource workingEnv folderStorage 100000 (Some (brush "c1"))
                              "brushes" st1) in
  snd (addResource workingEnv folderStorage 100000 (Some (brush "c1"))
                   "brushes" st2).

(** The same with a brush file last modified at second 2147483648
    (19 January 2038). *)
Definition cacheWithLateBrush : State :=
  let st1 := snd (addStorage workingEnv folderStorage false freshCache) in
  let st2 := snd (addResource workingEnv folderStorage 2147483648000
                              (Some (brush "c1")) "brushes" st1) in
  snd (addResource workingEnv folderStorage 2147483648000 (Some (brush "c1"))
                   "brushes" st2).

(** A bundle registered, as preinstalled, with the timestamp 2000 s. *)
Definition cacheWithBundle : State :=
  snd (addStorage workingEnv (bundleStorage 2000000) true freshCache).

(** The database of [freshCache] with its schema version altered. *)
Definition alteredDB : DB :=
  set_version_information
    (db freshCache)
    [mkVersionInformation "0.0.0" "4.2.0" "Mon Jan 1 00:00:00 2018 GMT"].

(** The engine carries out a statement on every database. *)
Definition carriesOut (env : Env) (s : Statement) : Prop :=
  forall d : DB, refusesPrepare env s d = false /\ refusesExec env s d = false.

Definition isNull {A : Type} (o : option A) : bool :=
  match o with None => true | Some _ => false end.

(** The rows of [tags] stored for (url, resourceType): those with the url
    whose [resource_type_id] is the id of a [resource_types] row of that
    name, or is NULL when the type has no such row - which is what the
    INSERT of [addTag] stores then. *)
Definition tagRowsFor (d : DB) (url resourceType : string) : list TagRow :=
  filter (fun r => (tr_url r =? url)%string
                   && (hasResourceType d resourceType (tr_resource_type_id r)
                       || (isNull (tr_resource_type_id r)
                           && isNull (resourceTypeId d resourceType))))
         (tags d).

(** What idempotence of [addTag] says of one pair of calls: afterwards the
    table holds one row for (url, resourceType), and the second call
    reported success and left the state of the first. *)
Definition addTagTwiceLeavesOne (env : Env) (resourceType url name comment : string)
           (st : State) : Prop :=
  List.length
    (tagRowsFor
       (db (snd (addTag env resourceType url name comment
                        (snd (addTag env resourceType url name comment st)))))
       url resourceType) = 1%nat
  /\ addTag env resourceType url name comment
            (snd (addTag env resourceType url name comment st))
     = (true, snd (addTag env resourceType url name comment st)).

(** The engine runs the lookup and the insertion of [addTag] on the
    connection of [st], whatever rows its tables hold. *)
Definition tagStatementsRun (env : Env) (resourceType url name comment : string)
           (st : State) : Prop :=
  forall d : DB,
    dbTables d = dbTables (db st) ->
    query env (set_db st d) (SelectTag url resourceType) = true
    /\ query env (set_db st d) (InsertTag url name comment resourceType) = true.

(** As [workingEnv], but [:/select_tag.sql] is missing from the compiled-in
    resources. *)
Definition tagLookupMissingEnv : Env :=
  mkEnv (fun path => negb (path =? ":/select_tag.sql")%string)
        (fun _ => true) (fun _ _ => false) (fun _ _ => false)
        (fun _ => mkError "driver" "database" UnknownError)
        ["brushes"; "patterns"] "4.2.0" "Mon Jan 1 00:00:00 2018 GMT"
        (fun s => s) storageTypeCode.

(** As [workingEnv], with an engine that cannot prepare the lookup of
    [select_tag.sql]. *)
Definition tagLookupRefusedEnv : Env :=
  mkEnv (fun _ => true) (fun _ => true)
        (fun s _ => match s with SelectTag _ _ => true | _ => false end)
        (fun _ _ => false)
        (fun _ => mkError "driver" "database" UnknownError)
        ["brushes"; "patterns"] "4.2.0" "Mon Jan 1 00:00:00 2018 GMT"
        (fun s => s) storageTypeCode.

(** As [workingEnv], with an engine that cannot write to [tags] (a database
    file that is read-only). *)
Definition readOnlyTagsEnv : Env :=
  mkEnv (fun _ => true) (fun _ => true) (fun _ _ => false)
        (fun s _ => match s with InsertTag _ _ _ _ => true | _ => false end)
        (fun _ => mkError "driver" "database" UnknownError)
        ["brushes"; "patterns"] "4.2.0" "Mon Jan 1 00:00:00 2018 GMT"
        (fun s => s) storageTypeCode.

(** A cache that holds the tag [favourites] for brushes twice. *)
Definition cacheWithDoubledTag : State :=
  snd (addTag tagLookupMissingEnv "brushes" "favourites" "Favourites" ""
              (snd (addTag tagLookupMissingEnv "brushes" "favourites" "Favourites" ""
                           freshCache))).

(** A folder whose two brush files cannot be loaded as valid resources and
    whose one tag lists a default resource the index does not hold. *)
Definition unreadableFolder : KisResourceStorage :=
  mkStorage "/home/user/broken" Folder 5000
            (fun resourceType =>
               if (resourceType =? "brushes")%string
               then [mkResourceItem (Some (mkResource false "" "a.gbr" "" "")) 100000 "brushes";
                     mkResourceItem (Some (mkResource false "" "b.gbr" "" "")) 100000 "brushes"]
               else [])
            (fun resourceType =>
               if (resourceType =? "brushes")%string
               then [mkTagItem "favourites" "Favourites" ""
                               (mkTag "favourites" ["missing.gbr"])]
               else []).

(** As [workingEnv], with an engine that refuses a tag whose resource type
    has no row in [resource_types] (a NOT NULL column). *)
Definition strictEnv : Env :=
  mkEnv (fun _ => true) (fun _ => true) (fun _ _ => false)
        (fun s d => match s with
                    | InsertTag _ _ _ resourceType =>
                        match resourceTypeId d resourceType with
                        | None => true
                        | Some _ => false
                        end
                    | _ => false
                    end)
        (fun _ => mkError "driver" "database" UnknownError)
        ["brushes"; "patterns"] "4.2.0" "Mon Jan 1 00:00:00 2018 GMT"
        (fun s => s) storageTypeCode.

(** Version numbers [1, 2, ..., n]. *)
Definition contiguousFromOne (versions : list (option Z)) : Prop :=
  versions = map (fun i => Some (Z.of_nat i)) (seq 1 (List.length versions)).

(** ** Notions for the further properties *)

Definition cooperative (env : Env) : Prop :=
  forall (s : Statement) (d : DB),
    refusesPrepare env s d = false /\ refusesExec env s d = false.

Definition scriptsPresent (env : Env) : Prop :=
  forall path : string, fileOpens env path = true.

Definition grownFrom {A : Type} (old new : list A) : Prop :=
  exists added : list A, new = (old ++ added)%list.

Definition userData (d : DB) :=
  (storages d, tags d, resources d, versioned_resources d, resource_tags d).

Definition schemaStatement (s : Statement) : bool :=
  match s with
  | GetVersionInformation | CreateTable _ | CreateIndex _
  | ClearOriginTypes | ClearResourceTypes
  | FillOriginTypes _ | FillResourceTypes _ | FillVersionInformation _ _ _ => true
  | _ => false
  end.

Definition lookupsGrow (d d' : DB) : Prop :=
  incl (dbTables d) (dbTables d')
  /\ grownFrom (origin_types d) (origin_types d')
  /\ grownFrom (resource_types d) (resource_types d')
  /\ grownFrom (version_information d) (version_information d').

(** The database [initDb] builds in a new file: the tables, the storage
    types, the registered resource types and the version row. *)
Definition freshSchema (env : Env) : DB :=
  effect (FillVersionInformation databaseVersion (versionString env)
                                 (currentDateTimeUtc env))
    (fold_left (fun d n => effect (FillResourceTypes n) d) (resourceTypes env)
       (fold_left (fun d n => effect (FillOriginTypes n) d) storageTypes
          (fold_left (fun d t => effect (CreateTable t) d) tables emptyDB))).

(** The schema and the lookup tables are the same. *)
Definition sameSchema (d d' : DB) : Prop :=
  dbTables d' = dbTables d
  /\ origin_types d' = origin_types d
  /\ resource_types d' = resource_types d
  /\ version_information d' = version_information d.

(** What [addResource] and its batches may do to a database: add rows at
    the end of [resources] and [versioned_resources], nothing else. *)
Definition resourcesAppended (d d' : DB) : Prop :=
  sameSchema d d'
  /\ storages d' = storages d
  /\ tags d' = tags d
  /\ resource_tags d' = resource_tags d
  /\ grownFrom (resources d) (resources d')
  /\ grownFrom (versioned_resources d) (versioned_resources d').

(** What [addTag], [tagResource] and [addTags] may do: add rows at the end
    of [tags] and [resource_tags], nothing else. *)
Definition tagsAppended (d d' : DB) : Prop :=
  sameSchema d d'
  /\ storages d' = storages d
  /\ resources d' = resources d
  /\ versioned_resources d' = versioned_resources d
  /\ grownFrom (tags d) (tags d')
  /\ grownFrom (resource_tags d) (resource_tags d').

(** What [synchronizeStorage] may do: add rows at the end of [storages],
    [resources] and [versioned_resources], nothing else. *)
Definition storageSynchronized (d d' : DB) : Prop :=
  sameSchema d d'
  /\ tags d' = tags d
  /\ resource_tags d' = resource_tags d
  /\ grownFrom (storages d) (storages d')
  /\ grownFrom (resources d) (resources d')
  /\ grownFrom (versioned_resources d) (versioned_resources d').

(** A brush stored under the name [tagResource] looks resources up by:
    storage location, resource type and file name. *)
Definition folderBrush : KoResource :=
  mkResource true "Basic tip" "/home/user/resources/brushes/basic_tip.gbr" "c1" "PNG".

(** A cache holding [folderBrush] and the tag [favourites] for brushes. *)
Definition taggableCache : State :=
  let st1 := snd (addStorage workingEnv folderStorage false freshCache) in
  let st2 := snd (addResource workingEnv folderStorage 100000 (Some folderBrush)
                              "brushes" st1) in
  snd (addTag workingEnv "brushes" "favourites" "Favourites" "" st2).

Definition favourites : KisTag := mkTag "favourites" ["basic_tip.gbr"].

(** The row [addStorage] inserts for a storage. *)
Definition storageRowFor (env : Env) (storage : KisResourceStorage)
           (preinstalled : bool) (d : DB) : StorageRow :=
  mkStorageRow (nextId (map sr_id (storages d)))
               (storageTypeValue env (storage_type storage))
               (storage_location storage)
               (toMSecsSinceEpoch (storage_timestamp storage))
               (if preinstalled then 1 else 0) 1.

(** The brush of [cacheWithBrush] under a new name, with a new thumbnail. *)
Definition renamedBrush : KoResource :=
  mkResource true "Renamed tip" "basic_tip.gbr" "c2" "PNG2".

(** The row [addResource] inserts for a resource it has not seen. *)
Definition resourceRowFor (env : Env) (res : KoResource) (resourceType : string)
           (d : DB) : ResourceRow :=
  mkResourceRow (nextId (map rr_id (resources d)))
                (resourceTypeId d resourceType)
                (res_name res) (res_filename res) (i18n env (res_name res))
                (res_image res) 1.

(** The cache with [folderStorage] registered and nothing else. *)
Definition cacheWithFolder : State :=
  snd (addStorage workingEnv folderStorage false freshCache).

(** The version row of the brush in [cacheWithBrush]. *)
Definition brushVersion : VersionedResourceRow :=
  mkVersionedRow 1 (Some 1) (Some 1) "basic_tip.gbr" 100 0 "c1".

(** An installation whose compiled-in SQL scripts are all missing. *)
Definition scriptlessEnv : Env :=
  mkEnv (fun _ => false) (fun _ => true) (fun _ _ => false) (fun _ _ => false)
        (fun _ => mkError "driver" "database" UnknownError)
        ["brushes"; "patterns"] "4.2.0" "Mon Jan 1 00:00:00 2018 GMT"
        (fun s => s) storageTypeCode.

(** The statements [addResource] and [addResourceVersion] carry out. *)
Definition resourceStatement (s : Statement) : bool :=
  match s with
  | InsertNextVersion _ _ _ _ _ | InsertResource _ _ _ _ _ _
  | InsertFirstVersion _ _ _ _ _ | UpdateResource _ _ _ _ _ => true
  | _ => false
  end.

(** ** Basic facts *)

Lemma set_db_same (st : State) : set_db st (db st) = st.
Proof. destruct st; reflexivity. Qed.

Lemma exec_connection env st s :
  connectionNames (snd (exec env st s)) = connectionNames st
  /\ isOpen (snd (exec env st s)) = isOpen st
  /\ s_valid (snd (exec env st s)) = s_valid st.
Proof. unfold exec; destruct (query env st s); auto. Qed.

Lemma query_prepare env st s : query env st s = true -> prepare env st s = true.
Proof. unfold query; intros H; apply andb_prop in H; tauto. Qed.

(** SQLite cannot parse the three statements of [deleteStorage], nor the
    [UPDATE] of [addResourceVersion]. *)
Lemma deleteStorage_statements_malformed (location : string) :
  wellFormed (DeleteStorageResources location) = false
  /\ wellFormed (DeleteStorageVersions location) = false
  /\ wellFormed (DeleteStorageRow location) = false.
Proof. repeat split; vm_compute; reflexivity. Qed.

Lemma update_statement_malformed n f t i id :
  wellFormed (UpdateResource n f t i id) = false.
Proof. vm_compute; reflexivity. Qed.

Lemma prepare_malformed env st s : wellFormed s = false -> prepare env st s = false.
Proof.
  intros H; unfold prepare; rewrite H.
  now rewrite andb_false_r.
Qed.

(** The other statements of the source pass the check. *)
Lemma other_statements_well_formed :
  forallb wellFormedSql
          [sql_resourceNeedsUpdating; sql_addResourceVersion_insert;
           sql_addResource_insert; sql_addResource_version; sql_tagResource;
           sql_addTag; sql_addStorage_select; sql_addStorage_insert;
           sql_synchronizeStorage] = true.
Proof. vm_compute; reflexivity. Qed.

(** ** deleteStorage *)

Lemma deleteStorage_fails env storage st :
  deleteStorage env storage st = (false, st).
Proof.
  unfold deleteStorage.
  destruct (deleteStorage_statements_malformed (storage_location storage)) as [H _].
  now rewrite (prepare_malformed env st _ H).
Qed.

(** C4.  [deleteStorage] is to remove the storage's N resource rows, its M
    version rows and its [storages] row.  As the code stands it removes no
    row at all: its first statement reads [DELETE FROM resourcesWHERE ...],
    which cannot be prepared, so the function reports failure at once,
    whatever the environment and the state. *)
Theorem deleteStorage_removes_nothing :
  forall (env : Env) (storage : KisResourceStorage) (st : State),
    let st' := snd (deleteStorage env storage st) in
    fst (deleteStorage env storage st) = false
    /\ resources (db st') = resources (db st)
    /\ versioned_resources (db st') = versioned_resources (db st)
    /\ storages (db st') = storages (db st).
Proof.
  intros env storage st; cbv zeta.
  rewrite deleteStorage_fails; cbn; auto.
Qed.

(** A registered storage is still there after [deleteStorage]. *)
Example deleteStorage_keeps_storage_row :
  let st := snd (addStorage workingEnv folderStorage false freshCache) in
  List.length (select_storage (db st) (storage_location folderStorage)) = 1%nat
  /\ deleteStorage workingEnv folderStorage st = (false, st).
Proof. split; [vm_compute; reflexivity | apply deleteStorage_fails]. Qed.

(** ** synchronizeStorage on a container storage *)

Lemma addStorage_existing env storage preinstalled st :
  select_storage (db st) (storage_location storage) <> [] ->
  snd (addStorage env storage preinstalled st) = st.
Proof.
  intros Hrow; unfold addStorage.
  destruct (s_valid st); cbn; [|reflexivity].
  destruct (query env st _); cbn; [|reflexivity].
  destruct (select_storage _ _); [contradiction|reflexivity].
Qed.

(** C3.  A container storage whose row is persisted is to be deleted and
    added again when its timestamp is newer than the persisted one.  As the
    code stands [synchronizeStorage] never changes anything for such a
    storage: when the comparison asks for the resynchronization,
    [deleteStorage] fails on its malformed statement and [addStorage] finds
    the old row in place and leaves it. *)
Theorem synchronizeStorage_container_changes_nothing :
  forall (env : Env) (storage : KisResourceStorage) (st : State),
    s_valid st = true ->
    isFolder (storage_type storage) = false ->
    select_storage (db st) (storage_location storage) <> [] ->
    snd (fst (synchronizeStorage env storage st)) = st.
Proof.
  intros env storage st Hvalid Hkind Hrow.
  unfold synchronizeStorage; rewrite Hvalid, Hkind; cbn [negb].
  destruct (query env st (SelectStorageTimestamp (storage_location storage))).
  - destruct (select_storage (db st) (storage_location storage)) as [|r rows] eqn:E;
      [contradiction|].
    destruct (_ >? _); [|reflexivity].
    rewrite deleteStorage_fails.
    destruct (addStorage env storage (toBool (Some (sr_pre_installed r))) st)
      as [ra st3] eqn:Ea.
    cbn. change st3 with (snd (ra, st3)); rewrite <- Ea.
    apply addStorage_existing; rewrite E; discriminate.
  - rewrite (addStorage_existing env storage false st Hrow).
    destruct (_ >? _); [|reflexivity].
    rewrite deleteStorage_fails.
    destruct (addStorage env storage (toBool None) st) as [ra st3] eqn:Ea.
    cbn. change st3 with (snd (ra, st3)); rewrite <- Ea.
    now apply addStorage_existing.
Qed.

(** The bundle was registered with the timestamp 2000 s and is now at
    3000000 s: the comparison asks for the resynchronization, and the row
    with the old timestamp stays. *)
Lemma synchronizeStorage_container_changes_nothing_witness :
  map sr_timestamp (storages (db cacheWithBundle)) = [2000000]
  /\ (toSecsSinceEpoch 3000000000 >? toInt (Some 2000000)) = true
  /\ snd (fst (synchronizeStorage workingEnv (bundleStorage 3000000000)
                                  cacheWithBundle)) = cacheWithBundle.
Proof.
  split; [vm_compute; reflexivity|].
  split; [vm_compute; reflexivity|].
  apply (synchronizeStorage_container_changes_nothing
           workingEnv (bundleStorage 3000000000) cacheWithBundle).
  - vm_compute; reflexivity.
  - vm_compute; reflexivity.
  - vm_compute; discriminate.
Defined.

(** [addStorage] persists milliseconds, [synchronizeStorage] compares
    seconds with them: a bundle registered at second 2000 and modified at
    second 3000 is not even tried. *)
Example synchronizeStorage_compares_seconds_with_milliseconds :
  synchronizeStorage workingEnv (bundleStorage 3000000) cacheWithBundle
  = (true, cacheWithBundle, []).
Proof. vm_compute; reflexivity. Qed.

(** ** resourceNeedsUpdating *)

Lemma wrap32_small (z : Z) : - 2 ^ 31 <= z < 2 ^ 31 -> wrap32 z = z.
Proof.
  intros H; unfold wrap32.
  rewrite Z.mod_small by lia. lia.
Qed.

(** Without a version row for the resource the answer is false, whatever
    the engine does. *)
Lemma resourceNeedsUpdating_no_rows env resourceId timestamp st :
  versionsOf (db st) resourceId = [] ->
  fst (resourceNeedsUpdating env resourceId timestamp st) = false.
Proof.
  intros Hnone; unfold resourceNeedsUpdating, select_latest_timestamp.
  rewrite Hnone; cbn.
  destruct (prepare env st _); cbn; [|reflexivity].
  destruct (query env st _); reflexivity.
Qed.

(** ... and when the engine answers the query, the inconsistency is what
    the log gets. *)
Lemma resourceNeedsUpdating_no_rows_logged env resourceId timestamp st :
  query env st (SelectLatestTimestamp resourceId) = true ->
  versionsOf (db st) resourceId = [] ->
  resourceNeedsUpdating env resourceId timestamp st
  = (false, ["Inconsistent database: could not find a version for resource with Id"]).
Proof.
  intros Hq Hnone; unfold resourceNeedsUpdating, select_latest_timestamp.
  rewrite (query_prepare _ _ _ Hq), Hq, Hnone; reflexivity.
Qed.

(** When the query yields the timestamp [t] of the newest version and [t]
    fits an [int], the answer is the strict comparison in seconds. *)
Lemma resourceNeedsUpdating_in_range env resourceId timestamp st t rest :
  query env st (SelectLatestTimestamp resourceId) = true ->
  select_latest_timestamp (db st) resourceId = t :: rest ->
  - 2 ^ 31 <= t < 2 ^ 31 ->
  fst (resourceNeedsUpdating env resourceId timestamp st) = true
  <-> toSecsSinceEpoch timestamp > t.
Proof.
  intros Hq Hsel Hrange; unfold resourceNeedsUpdating.
  rewrite (query_prepare _ _ _ Hq), Hq, Hsel; cbn [negb isValidVariant fst toInt].
  rewrite (wrap32_small _ Hrange).
  rewrite Z.gtb_ltb, Z.ltb_lt. lia.
Qed.

(** C9.  The answer is to be true exactly when the candidate timestamp is
    greater than that of the newest version.  The stored timestamp is read
    back with [toInt]: the only version of resource 1 carries second
    2147483648, which reads as -2147483648, and the older candidate
    1600000000 is taken to be newer. *)
Theorem resourceNeedsUpdating_truncates_stored_timestamp :
  map vr_timestamp (versionsOf (db cacheWithLateBrush) 1) = [2147483648]
  /\ toSecsSinceEpoch 1600000000000 = 1600000000
  /\ (1600000000 >? 2147483648) = false
  /\ resourceNeedsUpdating workingEnv 1 1600000000000 cacheWithLateBrush
     = (true, []).
Proof. repeat split; vm_compute; reflexivity. Qed.

(** ** addResourceVersion and addResource *)

(** [addResourceVersion] appends at most one row, numbered MAX(version)+1,
    and never reports success: its [UPDATE] cannot be prepared. *)
Lemma addResourceVersion_effect env resourceId timestamp storage resource st :
  let result := addResourceVersion env resourceId timestamp storage resource st in
  fst result = false
  /\ (snd result = st
      \/ versioned_resources (db (snd result))
         = versioned_resources (db st) ++
           [mkVersionedRow resourceId
                           (storageIdAt (db st) (storage_location storage))
                           (option_map (fun m => m + 1) (maxVersion (db st) resourceId))
                           (res_filename resource) (toSecsSinceEpoch timestamp) 0
                           (res_md5 resource)])%list.
Proof.
  cbv zeta; unfold addResourceVersion.
  destruct (prepare env st _); cbn [negb]; [|cbn; auto].
  unfold exec.
  destruct (query env st _); cbv beta iota; cbn [negb]; [|cbn; auto].
  rewrite prepare_malformed by apply update_statement_malformed.
  cbn [negb fst snd]; split; [reflexivity|right; reflexivity].
Qed.

(** C1.  A second [addResource] for a resource the index holds, with a
    timestamp that is not newer, is to be a no-op reporting success.  As the
    code stands the branch for an existing resource falls through to the
    insertion of a version-1 row: the call either reports failure, or
    succeeds having appended one more row numbered 1 for the resource. *)
Theorem addResource_existing_not_newer_appends :
  forall (env : Env) (storage : KisResourceStorage) (timestamp : QDateTime)
         (res : KoResource) (resourceType : string) (st : State),
    s_valid st = true ->
    res_valid res = true ->
    resourceIdForResource env (res_filename res) resourceType st > -1 ->
    fst (resourceNeedsUpdating
           env (resourceIdForResource env (res_filename res) resourceType st)
           timestamp st) = false ->
    let resourceId := resourceIdForResource env (res_filename res) resourceType st in
    let result := addResource env storage timestamp (Some res) resourceType st in
    (fst result = false /\ snd result = st)
    \/ (fst result = true
        /\ versioned_resources (db (snd result))
           = versioned_resources (db st) ++
             [mkVersionedRow resourceId
                             (storageIdAt (db st) (storage_location storage))
                             (Some 1) (res_filename res)
                             (toSecsSinceEpoch timestamp) 0 (res_md5 res)])%list.
Proof.
  intros env storage timestamp res resourceType st Hvalid Hres Hid Hold.
  cbv zeta; unfold addResource.
  rewrite Hvalid, Hres; cbn [negb].
  assert (E : (resourceIdForResource env (res_filename res) resourceType st >? -1) = true)
    by (rewrite Z.gtb_ltb, Z.ltb_lt; lia).
  rewrite E, Hold.
  destruct (prepare env st _); cbn [negb]; [|left; split; reflexivity].
  unfold exec; destruct (query env st _); [right|left]; split; reflexivity.
Qed.

(** The brush is in the index with one version row of second 100, and it
    is added again at second 100. *)
Lemma addResource_existing_not_newer_appends_witness :
  (fst (addResource workingEnv folderStorage 100000 (Some (brush "c1")) "brushes"
                    cacheWithBrush) = false
   /\ snd (addResource workingEnv folderStorage 100000 (Some (brush "c1")) "brushes"
                       cacheWithBrush) = cacheWithBrush)
  \/ (fst (addResource workingEnv folderStorage 100000 (Some (brush "c1")) "brushes"
                       cacheWithBrush) = true
      /\ versioned_resources
           (db (snd (addResource workingEnv folderStorage 100000 (Some (brush "c1"))
                                 "brushes" cacheWithBrush)))
         = versioned_resources (db cacheWithBrush) ++
           [mkVersionedRow
              (resourceIdForResource workingEnv (res_filename (brush "c1")) "brushes"
                                     cacheWithBrush)
              (storageIdAt (db cacheWithBrush) (storage_location folderStorage))
              (Some 1) (res_filename (brush "c1"))
              (toSecsSinceEpoch 100000) 0 (res_md5 (brush "c1"))])%list.
Proof.
  apply (addResource_existing_not_newer_appends
           workingEnv folderStorage 100000 (brush "c1") "brushes" cacheWithBrush);
    vm_compute; reflexivity.
Defined.

(** The call succeeds and leaves two rows for the brush, both numbered 1. *)
Example addResource_same_timestamp_twice :
  map vr_version (versionsOf (db cacheWithBrush) 1) = [Some 1]
  /\ fst (addResource workingEnv folderStorage 100000 (Some (brush "c1")) "brushes"
                      cacheWithBrush) = true
  /\ map vr_version
         (versionsOf
            (db (snd (addResource workingEnv folderStorage 100000
                                  (Some (brush "c1")) "brushes" cacheWithBrush))) 1)
     = [Some 1; Some 1].
Proof. repeat split; vm_compute; reflexivity. Qed.

(** C2.  The version numbers of a resource are to be 1, 2, ..., n.  The
    brush has one version row; a newer file (second 200, checksum c2) makes
    [addResourceVersion] append version 2 and then, by the same
    fall-through, [addResource] append another version 1: the numbers read
    1, 2, 1.  The row of the largest version does carry the new checksum. *)
Theorem addResource_newer_breaks_version_sequence :
  contiguousFromOne (map vr_version (versionsOf (db cacheWithBrush) 1))
  /\ map (fun r => (vr_version r, vr_checksum r))
         (versionsOf
            (db (snd (addResource workingEnv folderStorage 200000
                                  (Some (brush "c2")) "brushes" cacheWithBrush))) 1)
     = [(Some 1, "c1"); (Some 2, "c2"); (Some 1, "c2")]
  /\ ~ contiguousFromOne
         (map vr_version
              (versionsOf
                 (db (snd (addResource workingEnv folderStorage 200000
                                       (Some (brush "c2")) "brushes" cacheWithBrush)))
                 1)).
Proof.
  split; [unfold contiguousFromOne; vm_compute; reflexivity|].
  split; [vm_compute; reflexivity|].
  unfold contiguousFromOne; vm_compute; discriminate.
Qed.

(** [addResourceVersion] for a resource without a version row: MAX over no
    row is NULL, and so is the number of the row it appends. *)
Example addResourceVersion_without_lineage :
  versionsOf (db freshCache) 7 = []
  /\ map vr_version
         (versionsOf
            (db (snd (addResourceVersion workingEnv 7 100000 folderStorage
                                         (brush "c1") freshCache))) 7)
     = [None].
Proof. split; vm_compute; reflexivity. Qed.

(** A resource seen for the first time gets its version row under the
    resource id -1: [resourceId] still holds the "not found" answer when
    the row is inserted. *)
Example addResource_first_version_under_minus_one :
  let st := snd (addStorage workingEnv folderStorage false freshCache) in
  let st' := snd (addResource workingEnv folderStorage 100000 (Some (brush "c1"))
                              "brushes" st) in
  map rr_id (resources (db st')) = [1]
  /\ map vr_resource_id (versioned_resources (db st')) = [-1].
Proof. split; vm_compute; reflexivity. Qed.

(** ** initialize *)

Lemma createTables_connection env names st :
  connectionNames (snd (createTables env names st)) = connectionNames st.
Proof.
  revert st; induction names as [|table rest IH]; intros st; cbn; [reflexivity|].
  destruct (fileOpens env _); [|reflexivity].
  destruct (exec env st (CreateTable table)) as [ok st1] eqn:E.
  pose proof (exec_connection env st (CreateTable table)) as [C _].
  rewrite E in C; cbn in C.
  destruct ok; cbn; [rewrite IH|]; exact C.
Qed.

Lemma createIndexes_connection env names st :
  connectionNames (snd (createIndexes env names st)) = connectionNames st.
Proof.
  revert st; induction names as [|index rest IH]; intros st; cbn; [reflexivity|].
  destruct (fileOpens env _); [|reflexivity].
  destruct (exec env st (CreateIndex index)) as [ok st1] eqn:E.
  pose proof (exec_connection env st (CreateIndex index)) as [C _].
  rewrite E in C; cbn in C.
  destruct ok; cbn; [rewrite IH|]; exact C.
Qed.

Lemma fillLookup_connection env fill names st :
  connectionNames (snd (fillLookup env fill names st)) = connectionNames st.
Proof.
  revert st; induction names as [|n rest IH]; intros st; cbn; [reflexivity|].
  destruct (exec env st (fill n)) as [ok st1] eqn:E.
  pose proof (exec_connection env st (fill n)) as [C _].
  rewrite E in C; cbn in C.
  destruct ok; cbn; [rewrite IH|]; exact C.
Qed.

Lemma clear_connection env (b : bool) st s :
  connectionNames (if b then snd (exec env st s) else st) = connectionNames st.
Proof. destruct b; [apply exec_connection|reflexivity]. Qed.

(** Relates the connection names of a state produced by one of the loops
    to those of the state it started from. *)
Ltac connection_of E :=
  match type of E with
  | createTables ?e ?n ?a = _ =>
      let C := fresh "C" in
      pose proof (createTables_connection e n a) as C; rewrite E in C; cbn [snd] in C
  | createIndexes ?e ?n ?a = _ =>
      let C := fresh "C" in
      pose proof (createIndexes_connection e n a) as C; rewrite E in C; cbn [snd] in C
  | fillLookup ?e ?f ?n ?a = _ =>
      let C := fresh "C" in
      pose proof (fillLookup_connection e f n a) as C; rewrite E in C; cbn [snd] in C
  | exec ?e ?a ?s = _ =>
      let C := fresh "C" in
      pose proof (exec_connection e a s) as [C _]; rewrite E in C; cbn [snd] in C
  end.

(** Whatever [initDb] returns, the process has a connection afterwards. *)
Lemma initDb_connected env location st :
  connectionNames (snd (initDb env location st)) <> [].
Proof.
  unfold initDb.
  destruct (connectionNames st) as [|c cs] eqn:Econn; cbn [negb].
  2: { cbn [snd]; rewrite Econn; discriminate. }
  cbv zeta.
  destruct (dbOpens env _); cbn [negb]; [|cbn; discriminate].
  cbn [s_valid connectionNames db].
  destruct (schemaIsOutDated _ _ _) as [outdated|]; [|cbn; discriminate].
  destruct (_ && negb outdated); [cbn; discriminate|].
  destruct (createTables _ _ _) as [[e|] st1] eqn:E1; connection_of E1;
    [cbn [snd]; rewrite C; discriminate|].
  destruct (createIndexes _ _ _) as [[e|] st2] eqn:E2; connection_of E2;
    [cbn [snd]; rewrite C0, C; discriminate|].
  match goal with |- context [fillLookup env FillOriginTypes storageTypes ?a] =>
    assert (Ca : connectionNames a = [defaultConnection])
      by (rewrite clear_connection, C0, C; reflexivity);
    generalize dependent a; intros st3 Ca
  end.
  destruct (fileOpens env ":/fill_origin_types.sql"); cbn [negb];
    [|cbn [snd]; rewrite Ca; discriminate].
  destruct (fillLookup env FillOriginTypes _ _) as [[e|] st4] eqn:E4;
    connection_of E4;
    [cbn [snd]; rewrite C1, Ca; discriminate|].
  match goal with |- context [fillLookup env FillResourceTypes _ ?a] =>
    assert (Cb : connectionNames a = [defaultConnection])
      by (rewrite clear_connection, C1, Ca; reflexivity);
    generalize dependent a; intros st5 Cb
  end.
  destruct (fileOpens env ":/fill_resource_types.sql"); cbn [negb];
    [|cbn [snd]; rewrite Cb; discriminate].
  destruct (fillLookup env FillResourceTypes _ _) as [[e|] st6] eqn:E6;
    connection_of E6;
    [cbn [snd]; rewrite C2, Cb; discriminate|].
  destruct (fileOpens env ":/fill_version_information.sql"); cbn [negb];
    [|cbn [snd]; rewrite C2, Cb; discriminate].
  destruct (exec _ _ _) as [ok st7] eqn:E7; connection_of E7.
  destruct ok; cbn [negb snd]; rewrite C3, C2, Cb; discriminate.
Qed.

(** A process that is connected does nothing in [initDb]. *)
Lemma initDb_connected_noop env location st :
  connectionNames st <> [] -> initDb env location st = (noError, st).
Proof.
  intros H; unfold initDb.
  destruct (connectionNames st); [contradiction|reflexivity].
Qed.

(** C7.  [initialize] is idempotent: after a call that reported success, a
    second call, for any location, reports success and leaves the
    connection, the validity flag and every table as they are. *)
Theorem initialize_idempotent :
  forall (env : Env) (location location' : string) (st st' : State),
    initialize env location st = (true, st') ->
    initialize env location' st' = (true, st').
Proof.
  intros env location location' st st' H.
  unfold initialize in H.
  destruct (initDb env location st) as [err st1] eqn:E.
  injection H as Herr Hst.
  pose proof (initDb_connected env location st) as Hconn.
  rewrite E in Hconn; cbn [snd] in Hconn.
  rewrite Herr in Hst; subst st'.
  unfold initialize.
  rewrite initDb_connected_noop by exact Hconn.
  reflexivity.
Qed.

Lemma initialize_idempotent_witness :
  initialize workingEnv cacheLocation (startState emptyDB) = (true, freshCache)
  /\ initialize workingEnv cacheLocation freshCache = (true, freshCache).
Proof.
  assert (H : initialize workingEnv cacheLocation (startState emptyDB)
              = (true, freshCache)) by (vm_compute; reflexivity).
  split; [exact H|].
  exact (initialize_idempotent workingEnv cacheLocation cacheLocation
                               (startState emptyDB) freshCache H).
Defined.

(** The flag is what [initialize] returns. *)
Lemma initialize_sets_flag env location st :
  s_valid (snd (initialize env location st)) = fst (initialize env location st).
Proof.
  unfold initialize; destruct (initDb env location st); reflexivity.
Qed.

(** With the QSQLITE driver [QSqlQuery::size] is -1, so the block that
    verifies the version number never compares anything. *)
Lemma schemaIsOutDated_never_set env st :
  fileOpens env ":/get_version_information.sql" = true ->
  schemaIsOutDated env dbDriver st = Some false.
Proof.
  intros Hfile; unfold schemaIsOutDated; rewrite Hfile.
  destruct (contains _ _); [|reflexivity].
  unfold size.
  replace (hasFeature_QuerySize dbDriver) with false by reflexivity.
  rewrite andb_false_r; reflexivity.
Qed.

(** With a driver that reports sizes the same block does flag a stored
    version that differs from [databaseVersion]. *)
Lemma schemaIsOutDated_with_query_size env driver st r rest :
  hasFeature_QuerySize driver = true ->
  contains (dbTables (db st)) "version_information" = true ->
  fileOpens env ":/get_version_information.sql" = true ->
  query env st GetVersionInformation = true ->
  version_information (db st) = r :: rest ->
  vi_database_version r <> databaseVersion ->
  schemaIsOutDated env driver st = Some true.
Proof.
  intros Hsize Htable Hfile Hq Hrows Hdiff; unfold schemaIsOutDated.
  rewrite Htable, Hfile, Hq; unfold size, select_version_information.
  rewrite Hsize, Hrows; cbn [andb List.length].
  replace (Z.of_nat (S (List.length rest)) >? 0) with true
    by (symmetry; rewrite Z.gtb_ltb, Z.ltb_lt; lia).
  apply String.eqb_neq in Hdiff; rewrite Hdiff; reflexivity.
Qed.

(** C6.  A stored schema version that differs from [databaseVersion] is to
    be flagged.  As the code stands the comparison sits behind
    [q.size() > 0], which never holds with the QSQLITE driver: a database
    holding all the tables is accepted as it is, whatever
    [version_information] says. *)
Theorem initialize_accepts_any_schema_version :
  forall (env : Env) (location : string) (d : DB),
    dbOpens env (location ++ "/" ++ resourceCacheDbFilename) = true ->
    fileOpens env ":/get_version_information.sql" = true ->
    forallb (contains (dbTables d)) tables = true ->
    schemaIsOutDated env dbDriver (mkState false [defaultConnection] true d)
    = Some false
    /\ initialize env location (startState d)
       = (true, mkState true [defaultConnection] true d).
Proof.
  intros env location d Hopen Hfile Htables.
  split; [now apply schemaIsOutDated_never_set|].
  unfold initialize, initDb, startState.
  cbn [connectionNames negb s_valid db isOpen]; cbv zeta.
  rewrite Hopen; cbn [negb connectionNames s_valid db].
  rewrite (schemaIsOutDated_never_set env _ Hfile), Htables.
  reflexivity.
Qed.

(** The stored version reads 0.0.0, the expected one 0.0.1; the database
    is taken as up to date and left as it is. *)
Lemma initialize_accepts_any_schema_version_witness :
  map vi_database_version (version_information alteredDB) = ["0.0.0"]
  /\ ("0.0.0" =? databaseVersion)%string = false
  /\ schemaIsOutDated workingEnv dbDriver
                      (mkState false [defaultConnection] true alteredDB)
     = Some false
  /\ initialize workingEnv cacheLocation (startState alteredDB)
     = (true, mkState true [defaultConnection] true alteredDB).
Proof.
  split; [vm_compute; reflexivity|].
  split; [vm_compute; reflexivity|].
  apply (initialize_accepts_any_schema_version workingEnv cacheLocation alteredDB);
    vm_compute; reflexivity.
Defined.

(** ** The validity flag *)

Lemma addResource_refuses_invalid env storage timestamp resource resourceType st :
  s_valid st = false ->
  addResource env storage timestamp resource resourceType st = (false, st).
Proof. intros H; unfold addResource; rewrite H; reflexivity. Qed.

Lemma addStorage_refuses_invalid env storage preinstalled st :
  s_valid st = false -> addStorage env storage preinstalled st = (false, st).
Proof. intros H; unfold addStorage; rewrite H; reflexivity. Qed.

Lemma synchronizeStorage_refuses_invalid env storage st :
  s_valid st = false -> fst (synchronizeStorage env storage st) = (false, st).
Proof. intros H; unfold synchronizeStorage; rewrite H; reflexivity. Qed.

(** [addTag] does not read the flag: it does the same on a valid and on an
    invalid cache. *)
Lemma addTag_ignores_flag env resourceType url name comment st v :
  addTag env resourceType url name comment (set_s_valid st v)
  = (fst (addTag env resourceType url name comment st),
     set_s_valid (snd (addTag env resourceType url name comment st)) v).
Proof.
  unfold addTag, hasTag, exec, query, prepare; cbn [db isOpen set_s_valid].
  destruct (fileOpens env _); cbn [negb];
    repeat match goal with
           | |- context [if ?b then _ else _] => destruct b eqn:?; cbn [negb fst snd]
           | |- context [match ?l with [] => _ | _ :: _ => _ end] => destruct l eqn:?
           end; try reflexivity; try congruence.
Qed.

(** Nor does [tagResource]. *)
Lemma tagResource_ignores_flag env storage resourceName tag resourceType st v :
  tagResource env storage resourceName tag resourceType (set_s_valid st v)
  = (fst (tagResource env storage resourceName tag resourceType st),
     set_s_valid (snd (tagResource env storage resourceName tag resourceType st)) v).
Proof.
  unfold tagResource, resourceIdForResource, exec, query, prepare;
    cbn [db isOpen set_s_valid].
  repeat match goal with
         | |- context [if ?b then _ else _] => destruct b eqn:?; cbn [negb fst snd]
         | |- context [match ?l with [] => _ | _ :: _ => _ end] => destruct l eqn:?
         end; try reflexivity; try congruence.
Qed.

(** C5.  After a failed initialization every operation is to refuse to
    run.  [addResource], [addStorage] and [synchronizeStorage] do (lemmas
    above); [addTag], [tagResource] and [deleteStorage] do not read the
    flag.  Here the initialization fails on the missing
    [fill_version_information.sql], the flag is false, and [addTag] reports
    success having inserted a tag. *)
Theorem addTag_runs_on_invalid_cache :
  fst (initialize incompleteEnv cacheLocation (startState emptyDB)) = false
  /\ s_valid (snd (initialize incompleteEnv cacheLocation (startState emptyDB)))
     = false
  /\ tags (db (snd (initialize incompleteEnv cacheLocation (startState emptyDB))))
     = []
  /\ fst (addTag incompleteEnv "brushes" "favourites" "Favourites" ""
                 (snd (initialize incompleteEnv cacheLocation (startState emptyDB))))
     = true
  /\ map tr_url
         (tags (db (snd (addTag incompleteEnv "brushes" "favourites" "Favourites" ""
                                (snd (initialize incompleteEnv cacheLocation
                                                 (startState emptyDB)))))))
     = ["favourites"].
Proof. repeat split; vm_compute; reflexivity. Qed.

(** ** The batch operations *)

(** C10.  [addResources], [addTags] and the folder branch of
    [synchronizeStorage] return true whatever becomes of the calls they
    make for the items: the return value does not tell a batch that failed
    on every item from one that succeeded. *)
Theorem batch_operations_return_true :
  forall (env : Env) (storage : KisResourceStorage) (resourceType : string)
         (st : State),
    fst (fst (addResources env storage resourceType st)) = true
    /\ fst (fst (addTags env storage resourceType st)) = true
    /\ (s_valid st = true ->
        isFolder (storage_type storage) = true ->
        fst (fst (synchronizeStorage env storage st)) = true).
Proof.
  intros env storage resourceType st; repeat split.
  - unfold addResources; destruct (addResourceItems _ _ _ _); reflexivity.
  - unfold addTags; destruct (addTagItems _ _ _ _ _); reflexivity.
  - intros Hvalid Hfolder; unfold synchronizeStorage.
    rewrite Hvalid, Hfolder; cbn [negb].
    destruct (synchronizeFolder _ _ _ _); reflexivity.
Qed.

(** Both brush files fail, the default resource of the tag cannot be
    tagged, and each of the three operations returns true; only the log
    tells. *)
Lemma batch_operations_return_true_witness :
  addResources workingEnv unreadableFolder "brushes" freshCache
  = (true, freshCache,
     ["Could not add resource a.gbr to the database";
      "Could not add resource b.gbr to the database"])
  /\ snd (addTags workingEnv unreadableFolder "brushes" freshCache)
     = ["Could not tag resource missing.gbr"]
  /\ snd (synchronizeStorage workingEnv unreadableFolder freshCache)
     = ["Could not add resource a.gbr to the database";
        "Could not add resource b.gbr to the database"]
  /\ fst (fst (addResources workingEnv unreadableFolder "brushes" freshCache)) = true
  /\ fst (fst (addTags workingEnv unreadableFolder "brushes" freshCache)) = true
  /\ fst (fst (synchronizeStorage workingEnv unreadableFolder freshCache)) = true.
Proof.
  split; [vm_compute; reflexivity|].
  split; [vm_compute; reflexivity|].
  split; [vm_compute; reflexivity|].
  destruct (batch_operations_return_true workingEnv unreadableFolder "brushes"
                                         freshCache) as (H1 & H2 & H3).
  split; [exact H1|].
  split; [exact H2|].
  apply H3; vm_compute; reflexivity.
Defined.

(** ** addTag *)

Lemma resourceTypeId_has d resourceType id :
  resourceTypeId d resourceType = Some id ->
  hasResourceType d resourceType (Some id) = true.
Proof.
  unfold resourceTypeId, hasResourceType.
  induction (resource_types d) as [|t rest IH]; cbn; [discriminate|].
  destruct (lk_name t =? resourceType)%string; cbn.
  - intros H; injection H as H; subst id.
    now rewrite Z.eqb_refl.
  - exact IH.
Qed.

Lemma addTag_existing env resourceType url name comment st :
  fileOpens env ":/select_tag.sql" = true ->
  query env st (SelectTag url resourceType) = true ->
  select_tag (db st) url resourceType <> [] ->
  addTag env resourceType url name comment st = (true, st).
Proof.
  intros Hfile Hq Hrows; unfold addTag, hasTag.
  rewrite Hfile, (query_prepare _ _ _ Hq), Hq; cbn [negb].
  destruct (select_tag _ _ _); [contradiction|reflexivity].
Qed.

Lemma addTag_new env resourceType url name comment st :
  query env st (InsertTag url name comment resourceType) = true ->
  select_tag (db st) url resourceType = [] ->
  addTag env resourceType url name comment st
  = (true, set_db st (effect (InsertTag url name comment resourceType) (db st))).
Proof.
  intros Hq Hnone; unfold addTag, hasTag.
  rewrite Hnone.
  destruct (fileOpens env ":/select_tag.sql");
    [destruct (prepare env st (SelectTag url resourceType)); cbn [negb];
     [destruct (query env st (SelectTag url resourceType))|]|];
    rewrite (query_prepare _ _ _ Hq); cbn [negb];
    unfold exec; rewrite Hq; reflexivity.
Qed.

(** After the insertion exactly one tag answers to the key. *)
Lemma select_tag_after_insert d resourceType url name comment :
  resourceTypeId d resourceType <> None ->
  select_tag d url resourceType = [] ->
  List.length (select_tag (effect (InsertTag url name comment resourceType) d)
                          url resourceType) = 1%nat.
Proof.
  intros Hreg Hnone.
  destruct (resourceTypeId d resourceType) as [id|] eqn:Eid; [|contradiction].
  unfold select_tag in *; cbn [effect tags set_tags].
  rewrite filter_app, map_app.
  apply map_eq_nil in Hnone.
  replace (filter _ (tags d)) with (@nil TagRow) by (symmetry; exact Hnone).
  cbn [filter tr_url tr_resource_type_id map app].
  rewrite String.eqb_refl; cbn [andb].
  replace (hasResourceType _ resourceType (resourceTypeId d resourceType)) with true;
    [reflexivity|].
  rewrite Eid; symmetry.
  exact (resourceTypeId_has d resourceType id Eid).
Qed.

(** For a registered type the rows stored for the key are the rows the
    lookup finds. *)
Lemma select_tag_tagRowsFor d url resourceType :
  resourceTypeId d resourceType <> None ->
  select_tag d url resourceType = map tr_id (tagRowsFor d url resourceType).
Proof.
  intros Hreg; unfold select_tag, tagRowsFor; f_equal.
  apply filter_ext; intros r.
  destruct (resourceTypeId d resourceType); [|contradiction].
  cbn [isNull]; now rewrite andb_false_r, orb_false_r.
Qed.




(** * Further properties of the operations *)

Section InitInvariant.

Variable env : Env.
Variable R : State -> State -> Prop.
Hypothesis R_refl : forall st, R st st.
Hypothesis R_trans : forall a b c, R a b -> R b c -> R a c.
Hypothesis R_exec :
  forall st s, schemaStatement s = true -> R st (snd (exec env st s)).
Hypothesis R_connection : forall st v c o, R st (mkState v c o (db st)).

Lemma createTables_invariant names st : R st (snd (createTables env names st)).
Proof.
  revert st; induction names as [|table rest IH]; intros st; cbn; [apply R_refl|].
  destruct (fileOpens env _); [|apply R_refl].
  pose proof (R_exec st (CreateTable table) eq_refl) as H.
  destruct (exec env st (CreateTable table)) as [ok st1]; cbn [snd] in H.
  destruct ok; cbn [negb]; [|exact H].
  eapply R_trans; [exact H|apply IH].
Qed.

Lemma createIndexes_invariant names st : R st (snd (createIndexes env names st)).
Proof.
  revert st; induction names as [|index rest IH]; intros st; cbn; [apply R_refl|].
  destruct (fileOpens env _); [|apply R_refl].
  pose proof (R_exec st (CreateIndex index) eq_refl) as H.
  destruct (exec env st (CreateIndex index)) as [ok st1]; cbn [snd] in H.
  destruct ok; cbn [negb]; [|exact H].
  eapply R_trans; [exact H|apply IH].
Qed.

Lemma fillLookup_invariant fill names st :
  (forall n, schemaStatement (fill n) = true) ->
  R st (snd (fillLookup env fill names st)).
Proof.
  intros Hfill.
  revert st; induction names as [|n rest IH]; intros st; cbn; [apply R_refl|].
  pose proof (R_exec st (fill n) (Hfill n)) as H.
  destruct (exec env st (fill n)) as [ok st1]; cbn [snd] in H.
  destruct ok; cbn [negb]; [|exact H].
  eapply R_trans; [exact H|apply IH].
Qed.

Lemma clear_invariant (b : bool) st s :
  schemaStatement s = true -> R st (if b then snd (exec env st s) else st).
Proof. intros H; destruct b; [now apply R_exec|apply R_refl]. Qed.

Lemma initDb_invariant location st : R st (snd (initDb env location st)).
Proof.
  unfold initDb.
  destruct (connectionNames st) as [|c cs]; cbn [negb]; [|apply R_refl].
  cbv zeta.
  destruct (dbOpens env _); cbn [negb]; [|apply R_connection].
  cbn [s_valid connectionNames db].
  match goal with |- context [schemaIsOutDated env dbDriver ?a] =>
    assert (H0 : R st a) by apply R_connection;
    generalize dependent a; intros st0 H0
  end.
  destruct (schemaIsOutDated _ _ _) as [outdated|]; [|exact H0].
  destruct (_ && negb outdated); [exact H0|].
  pose proof (createTables_invariant tables st0) as H1.
  destruct (createTables env tables st0) as [[e|] st1]; cbn [snd] in H1;
    [exact (R_trans _ _ _ H0 H1)|].
  pose proof (createIndexes_invariant indexes st1) as H2.
  destruct (createIndexes env indexes st1) as [[e|] st2]; cbn [snd] in H2;
    [exact (R_trans _ _ _ H0 (R_trans _ _ _ H1 H2))|].
  assert (H02 : R st st2) by exact (R_trans _ _ _ H0 (R_trans _ _ _ H1 H2)).
  clear H0 H1 H2.
  match goal with |- context [fillLookup env FillOriginTypes storageTypes ?a] =>
    assert (H3 : R st a)
      by (eapply R_trans; [exact H02|apply clear_invariant; reflexivity]);
    generalize dependent a; intros st3 H3
  end.
  destruct (fileOpens env ":/fill_origin_types.sql"); cbn [negb]; [|exact H3].
  pose proof (fillLookup_invariant FillOriginTypes storageTypes st3
                                   (fun _ => eq_refl)) as H4.
  destruct (fillLookup env FillOriginTypes storageTypes st3) as [[e|] st4];
    cbn [snd] in H4; [exact (R_trans _ _ _ H3 H4)|].
  assert (H04 : R st st4) by exact (R_trans _ _ _ H3 H4).
  clear H3 H4.
  match goal with |- context [fillLookup env FillResourceTypes _ ?a] =>
    assert (H5 : R st a)
      by (eapply R_trans; [exact H04|apply clear_invariant; reflexivity]);
    generalize dependent a; intros st5 H5
  end.
  destruct (fileOpens env ":/fill_resource_types.sql"); cbn [negb]; [|exact H5].
  pose proof (fillLookup_invariant FillResourceTypes (resourceTypes env) st5
                                   (fun _ => eq_refl)) as H6.
  destruct (fillLookup env FillResourceTypes (resourceTypes env) st5) as [[e|] st6];
    cbn [snd] in H6; [exact (R_trans _ _ _ H5 H6)|].
  destruct (fileOpens env ":/fill_version_information.sql"); cbn [negb];
    [|exact (R_trans _ _ _ H5 H6)].
  match goal with |- context [exec env st6 ?s] =>
    pose proof (R_exec st6 s eq_refl) as H7;
    destruct (exec env st6 s) as [ok st7]
  end.
  cbn [snd] in H7.
  destruct ok; cbn [negb snd]; exact (R_trans _ _ _ H5 (R_trans _ _ _ H6 H7)).
Qed.

End InitInvariant.

Lemma grownFrom_refl {A} (l : list A) : grownFrom l l.
Proof. exists []; now rewrite app_nil_r. Qed.

Lemma grownFrom_trans {A} (a b c : list A) :
  grownFrom a b -> grownFrom b c -> grownFrom a c.
Proof.
  intros [x Hx] [y Hy]; exists (x ++ y)%list.
  now rewrite Hy, Hx, app_assoc.
Qed.

Lemma grownFrom_app {A} (l added : list A) : grownFrom l (l ++ added)%list.
Proof. now exists added. Qed.

Lemma lookupsGrow_refl d : lookupsGrow d d.
Proof.
  repeat split; try apply grownFrom_refl. apply incl_refl.
Qed.

Lemma lookupsGrow_trans a b c : lookupsGrow a b -> lookupsGrow b c -> lookupsGrow a c.
Proof.
  intros (H1 & H2 & H3 & H4) (K1 & K2 & K3 & K4); repeat split.
  - eapply incl_tran; eassumption.
  - eapply grownFrom_trans; eassumption.
  - eapply grownFrom_trans; eassumption.
  - eapply grownFrom_trans; eassumption.
Qed.

(** The two statements meant to clear the lookup tables are never carried
    out: [DELETE * FROM ...] is not SQL. *)
Lemma clear_statements_fail env st :
  exec env st ClearOriginTypes = (false, st)
  /\ exec env st ClearResourceTypes = (false, st).
Proof.
  unfold exec, query.
  rewrite !prepare_malformed by (vm_compute; reflexivity).
  split; reflexivity.
Qed.

Lemma exec_schema_lookupsGrow env st s :
  schemaStatement s = true ->
  lookupsGrow (db st) (db (snd (exec env st s))).
Proof.
  intros Hs.
  destruct s; try discriminate Hs;
    try (destruct (clear_statements_fail env st) as [E1 E2];
         rewrite ?E1, ?E2; apply lookupsGrow_refl);
    unfold exec; destruct (query env st _); cbn [snd set_db db effect];
    try apply lookupsGrow_refl.
  - destruct (contains _ _); [apply lookupsGrow_refl|].
    repeat split; cbn; try apply grownFrom_refl.
    apply incl_appl, incl_refl.
  - repeat split; cbn; try apply grownFrom_refl; try apply incl_refl.
    apply grownFrom_app.
  - repeat split; cbn; try apply grownFrom_refl; try apply incl_refl.
    apply grownFrom_app.
  - repeat split; cbn; try apply grownFrom_refl; try apply incl_refl.
    apply grownFrom_app.
Qed.

Lemma initialize_db env location st :
  db (snd (initialize env location st)) = db (snd (initDb env location st)).
Proof. unfold initialize; destruct (initDb env location st); reflexivity. Qed.


(** X3.  Whatever the first [initialize] returned, a further call reports
    success and marks the cache valid without executing anything. *)
Theorem initialize_again_always_succeeds :
  forall (env : Env) (location location' : string) (st : State),
    initialize env location' (snd (initialize env location st))
    = (true, set_s_valid (snd (initialize env location st)) true).
Proof.
  intros env location location' st.
  pose proof (initDb_connected env location st) as Hconn.
  unfold initialize at 2 3.
  destruct (initDb env location st) as [err st1]; cbn [snd] in *.
  unfold initialize.
  rewrite initDb_connected_noop by exact Hconn.
  reflexivity.
Qed.

Lemma set_db_set_db st a b : set_db (set_db st a) b = set_db st b.
Proof. reflexivity. Qed.

Lemma exec_cooperative env st s :
  cooperative env ->
  isOpen st = true ->
  wellFormed s = true ->
  forallb (contains (dbTables (db st))) (tablesOf s) = true ->
  exec env st s = (true, set_db st (effect s (db st))).
Proof.
  intros Hcoop Hopen Hwf Htabs.
  destruct (Hcoop s (db st)) as [Hp He].
  unfold exec, query, prepare.
  now rewrite Hopen, Hwf, Htabs, Hp, He.
Qed.

Lemma createTables_cooperative env names st :
  cooperative env -> scriptsPresent env -> isOpen st = true ->
  createTables env names st
  = (None, set_db st (fold_left (fun d t => effect (CreateTable t) d) names (db st))).
Proof.
  intros Hcoop Hfiles.
  revert st; induction names as [|table rest IH]; intros st Hopen; cbn [createTables fold_left].
  - now rewrite set_db_same.
  - rewrite Hfiles, exec_cooperative by (assumption || reflexivity).
    cbn [negb]; rewrite IH by exact Hopen.
    reflexivity.
Qed.

Lemma fillLookup_cooperative env fill names st :
  cooperative env -> isOpen st = true ->
  (forall n, wellFormed (fill n) = true) ->
  (forall n d, dbTables (effect (fill n) d) = dbTables d) ->
  (forall n, forallb (contains (dbTables (db st))) (tablesOf (fill n)) = true) ->
  fillLookup env fill names st
  = (None, set_db st (fold_left (fun d n => effect (fill n) d) names (db st))).
Proof.
  intros Hcoop Hopen Hwf Hkeep.
  revert st Hopen; induction names as [|n rest IH]; intros st Hopen Htabs;
    cbn [fillLookup fold_left].
  - now rewrite set_db_same.
  - rewrite exec_cooperative by auto.
    cbn [negb]; rewrite IH.
    + reflexivity.
    + exact Hopen.
    + intros m; cbn [db set_db]; rewrite Hkeep; apply Htabs.
Qed.

Lemma fill_resource_types_fold names d :
  let d' := fold_left (fun d n => effect (FillResourceTypes n) d) names d in
  dbTables d' = dbTables d
  /\ origin_types d' = origin_types d
  /\ version_information d' = version_information d
  /\ userData d' = userData d
  /\ map lk_name (resource_types d') = (map lk_name (resource_types d) ++ names)%list.
Proof.
  cbv zeta; revert d; induction names as [|n rest IH]; intros d; cbn [fold_left].
  - rewrite app_nil_r; auto.
  - destruct (IH (effect (FillResourceTypes n) d)) as (H1 & H2 & H3 & H4 & H5).
    rewrite H1, H2, H3, H4, H5; cbn [effect resource_types set_resource_types].
    rewrite map_app, <- app_assoc; cbn; auto.
Qed.

Lemma initDb_fresh env location :
  cooperative env -> scriptsPresent env ->
  dbOpens env (location ++ "/" ++ resourceCacheDbFilename) = true ->
  initDb env location (startState emptyDB)
  = (noError, mkState false [defaultConnection] true (freshSchema env)).
Proof.
  intros Hcoop Hfiles Hopen.
  unfold initDb, startState; cbn [connectionNames negb s_valid db]; cbv zeta.
  rewrite Hopen; cbn [negb s_valid connectionNames db].
  change (schemaIsOutDated env dbDriver _) with (Some false).
  change (forallb (contains (dbTables emptyDB)) tables) with false.
  cbn [andb].
  rewrite createTables_cooperative by (assumption || reflexivity).
  cbn [db set_db createIndexes indexes].
  rewrite Hfiles, exec_cooperative by (assumption || reflexivity).
  cbn [negb db set_db].
  change (contains (dbTables emptyDB) "origin_types") with false.
  change (contains (dbTables emptyDB) "resource_types") with false.
  cbv iota.
  rewrite !Hfiles; cbn [negb].
  rewrite fillLookup_cooperative;
    [|assumption|reflexivity|reflexivity|reflexivity|intros; reflexivity].
  cbn [db set_db negb].
  rewrite fillLookup_cooperative;
    [|assumption|reflexivity|reflexivity|reflexivity|intros; reflexivity].
  cbn [db set_db].
  rewrite exec_cooperative; [reflexivity|assumption|reflexivity|reflexivity|].
  cbn [db set_db tablesOf forallb].
  match goal with
  | |- context [dbTables (fold_left _ (resourceTypes env) ?y)] =>
      destruct (fill_resource_types_fold (resourceTypes env) y) as (H1 & _)
  end.
  rewrite H1; reflexivity.
Qed.

Lemma fill_version_information_fields v k c d :
  dbTables (effect (FillVersionInformation v k c) d) = dbTables d
  /\ origin_types (effect (FillVersionInformation v k c) d) = origin_types d
  /\ resource_types (effect (FillVersionInformation v k c) d) = resource_types d
  /\ userData (effect (FillVersionInformation v k c) d) = userData d
  /\ version_information (effect (FillVersionInformation v k c) d)
     = (version_information d ++ [mkVersionInformation v k c])%list.
Proof. repeat split; reflexivity. Qed.

(** X4.  On a new database file, with every script at hand and a
    cooperative engine, [initialize] succeeds, marks the cache valid and
    leaves the eight tables, the five storage types, the registered resource
    types and one version row carrying [databaseVersion]; no user data. *)
Theorem initialize_creates_schema :
  forall (env : Env) (location : string),
    cooperative env ->
    scriptsPresent env ->
    dbOpens env (location ++ "/" ++ resourceCacheDbFilename) = true ->
    let result := initialize env location (startState emptyDB) in
    fst result = true
    /\ s_valid (snd result) = true
    /\ dbTables (db (snd result)) = tables
    /\ map lk_name (origin_types (db (snd result))) = storageTypes
    /\ map lk_name (resource_types (db (snd result))) = resourceTypes env
    /\ version_information (db (snd result))
       = [mkVersionInformation databaseVersion (versionString env)
                               (currentDateTimeUtc env)]
    /\ userData (db (snd result)) = ([], [], [], [], []).
Proof.
  intros env location Hcoop Hfiles Hopen; cbv zeta.
  unfold initialize; rewrite (initDb_fresh env location Hcoop Hfiles Hopen).
  cbn [fst snd isValid noError errorType negb set_s_valid s_valid db].
  unfold freshSchema.
  match goal with
  | |- context [effect (FillVersionInformation ?v ?k ?c) ?d] =>
      destruct (fill_version_information_fields v k c d)
        as (F1 & F2 & F3 & F4 & F5)
  end.
  rewrite F1, F2, F3, F4, F5; clear F1 F2 F3 F4 F5.
  set (filled := fold_left (fun d n => effect (FillOriginTypes n) d) storageTypes
                   (fold_left (fun d t => effect (CreateTable t) d) tables emptyDB)).
  destruct (fill_resource_types_fold (resourceTypes env) filled)
    as (H1 & H2 & H3 & H4 & H5).
  rewrite H1, H2, H3, H4, H5.
  assert (K1 : dbTables filled = tables) by (vm_compute; reflexivity).
  assert (K2 : map lk_name (origin_types filled) = storageTypes)
    by (vm_compute; reflexivity).
  assert (K3 : version_information filled = []) by (vm_compute; reflexivity).
  assert (K4 : userData filled = ([], [], [], [], [])) by (vm_compute; reflexivity).
  assert (K5 : resource_types filled = []) by (vm_compute; reflexivity).
  rewrite K1, K2, K3, K4, K5.
  repeat split; reflexivity.
Qed.

Lemma initialize_creates_schema_witness :
  fst (initialize workingEnv cacheLocation (startState emptyDB)) = true
  /\ s_valid (snd (initialize workingEnv cacheLocation (startState emptyDB))) = true
  /\ dbTables (db (snd (initialize workingEnv cacheLocation (startState emptyDB))))
     = tables
  /\ map lk_name
         (origin_types (db (snd (initialize workingEnv cacheLocation
                                            (startState emptyDB)))))
     = storageTypes
  /\ map lk_name
         (resource_types (db (snd (initialize workingEnv cacheLocation
                                              (startState emptyDB)))))
     = resourceTypes workingEnv
  /\ version_information
       (db (snd (initialize workingEnv cacheLocation (startState emptyDB))))
     = [mkVersionInformation databaseVersion (versionString workingEnv)
                             (currentDateTimeUtc workingEnv)]
  /\ userData (db (snd (initialize workingEnv cacheLocation (startState emptyDB))))
     = ([], [], [], [], []).
Proof.
  apply (initialize_creates_schema workingEnv cacheLocation).
  - intros s d; split; reflexivity.
  - intros path; reflexivity.
  - reflexivity.
Defined.

Lemma sameSchema_refl d : sameSchema d d.
Proof. repeat split. Qed.

Lemma sameSchema_trans a b c : sameSchema a b -> sameSchema b c -> sameSchema a c.
Proof.
  intros (H1 & H2 & H3 & H4) (K1 & K2 & K3 & K4).
  repeat split; congruence.
Qed.

Lemma resourcesAppended_refl d : resourcesAppended d d.
Proof. repeat split; apply grownFrom_refl. Qed.

Lemma resourcesAppended_trans a b c :
  resourcesAppended a b -> resourcesAppended b c -> resourcesAppended a c.
Proof.
  intros (H0 & H1 & H2 & H3 & H4 & H5) (K0 & K1 & K2 & K3 & K4 & K5).
  split; [eapply sameSchema_trans; eassumption|].
  repeat split; try congruence; eapply grownFrom_trans; eassumption.
Qed.

Lemma tagsAppended_refl d : tagsAppended d d.
Proof. repeat split; apply grownFrom_refl. Qed.

Lemma tagsAppended_trans a b c :
  tagsAppended a b -> tagsAppended b c -> tagsAppended a c.
Proof.
  intros (H0 & H1 & H2 & H3 & H4 & H5) (K0 & K1 & K2 & K3 & K4 & K5).
  split; [eapply sameSchema_trans; eassumption|].
  repeat split; try congruence; eapply grownFrom_trans; eassumption.
Qed.

Lemma storageSynchronized_refl d : storageSynchronized d d.
Proof. repeat split; apply grownFrom_refl. Qed.

Lemma resourcesAppended_synchronized d d' :
  resourcesAppended d d' -> storageSynchronized d d'.
Proof.
  intros (H0 & H1 & H2 & H3 & H4 & H5).
  repeat split; try apply H0; try assumption.
  rewrite H1; apply grownFrom_refl.
Qed.

(** A statement either fails and leaves the database, or has its effect. *)
Lemma exec_db env st s :
  exec env st s = (false, st)
  \/ exec env st s = (true, set_db st (effect s (db st))).
Proof. unfold exec; destruct (query env st s); auto. Qed.

Lemma update_resource_fails env st n f t i id :
  exec env st (UpdateResource n f t i id) = (false, st).
Proof.
  unfold exec, query.
  now rewrite prepare_malformed by apply update_statement_malformed.
Qed.


Lemma exec_resourcesAppended env st s :
  resourceStatement s = true ->
  resourcesAppended (db st) (db (snd (exec env st s))).
Proof.
  intros Hs.
  destruct s; try discriminate Hs;
    try (rewrite update_resource_fails; apply resourcesAppended_refl);
    (match goal with
     | |- context [exec env st ?s] => destruct (exec_db env st s) as [E|E]; rewrite E
     end);
    cbn [snd db set_db];
    try apply resourcesAppended_refl;
    repeat split; cbn; try apply grownFrom_refl; apply grownFrom_app.
Qed.

Lemma addResourceVersion_resourcesAppended env resourceId timestamp storage resource st :
  resourcesAppended
    (db st) (db (snd (addResourceVersion env resourceId timestamp storage resource st))).
Proof.
  unfold addResourceVersion.
  destruct (prepare env st _); cbn [negb]; [|apply resourcesAppended_refl].
  match goal with |- context [exec env st ?s] =>
    pose proof (exec_resourcesAppended env st s eq_refl) as H1;
    destruct (exec env st s) as [r st1]
  end.
  cbn [snd] in H1.
  destruct r; cbn [negb]; [|exact H1].
  rewrite prepare_malformed by apply update_statement_malformed.
  exact H1.
Qed.

Lemma addResource_resourcesAppended env storage timestamp resource resourceType st :
  resourcesAppended
    (db st) (db (snd (addResource env storage timestamp resource resourceType st))).
Proof.
  unfold addResource.
  destruct (s_valid st); cbn [negb]; [|apply resourcesAppended_refl].
  destruct resource as [res|]; [|apply resourcesAppended_refl].
  destruct (res_valid res); cbn [negb]; [|apply resourcesAppended_refl].
  set (resourceId := resourceIdForResource env (res_filename res) resourceType st).
  assert (Hlast : forall st1,
             resourcesAppended (db st) (db st1) ->
             resourcesAppended
               (db st)
               (db (snd (if negb (prepare env st1
                                    (InsertFirstVersion resourceId (storage_location storage)
                                       (res_filename res) (toSecsSinceEpoch timestamp)
                                       (res_md5 res)))
                         then (false, st1)
                         else exec env st1
                                (InsertFirstVersion resourceId (storage_location storage)
                                   (res_filename res) (toSecsSinceEpoch timestamp)
                                   (res_md5 res)))))).
  { intros st1 H1.
    destruct (prepare env st1 _); cbn [negb]; [|exact H1].
    eapply resourcesAppended_trans; [exact H1|].
    now apply exec_resourcesAppended. }
  destruct (resourceId >? -1).
  - destruct (fst (resourceNeedsUpdating env resourceId timestamp st)).
    + apply Hlast, addResourceVersion_resourcesAppended.
    + apply Hlast, resourcesAppended_refl.
  - destruct (prepare env st _); cbn [negb]; [|apply resourcesAppended_refl].
    match goal with |- context [exec env st ?s] =>
      pose proof (exec_resourcesAppended env st s eq_refl) as H1;
      destruct (exec env st s) as [r st1]
    end.
    cbn [snd] in H1.
    destruct r; cbn [negb]; [|exact H1].
    apply Hlast, H1.
Qed.

Lemma addResourceItems_resourcesAppended env storage items st :
  resourcesAppended (db st) (db (fst (addResourceItems env storage items st))).
Proof.
  revert st; induction items as [|item rest IH]; intros st; cbn [addResourceItems];
    [apply resourcesAppended_refl|].
  destruct (ri_resource item) as [res|]; [|apply IH].
  pose proof (addResource_resourcesAppended
                env storage (ri_lastModified item) (Some res) (ri_type item) st) as H1.
  destruct (addResource env storage _ _ _ st) as [r st1]; cbn [snd] in H1.
  specialize (IH st1).
  destruct (addResourceItems env storage rest st1) as [st2 log]; cbn [fst] in *.
  eapply resourcesAppended_trans; eassumption.
Qed.

Lemma synchronizeFolder_resourcesAppended env storage types st :
  resourcesAppended (db st) (db (fst (synchronizeFolder env storage types st))).
Proof.
  revert st; induction types as [|t rest IH]; intros st; cbn [synchronizeFolder];
    [apply resourcesAppended_refl|].
  pose proof (addResourceItems_resourcesAppended
                env storage (storage_resources storage t) st) as H1.
  destruct (addResourceItems env storage _ st) as [st1 log1]; cbn [fst] in H1.
  specialize (IH st1).
  destruct (synchronizeFolder env storage rest st1) as [st2 log2]; cbn [fst] in *.
  eapply resourcesAppended_trans; eassumption.
Qed.

(** X5.  [addResources] only ever appends: it leaves the schema, the lookup
    tables, the storages, the tags and the tag associations as they are,
    and the rows of [resources] and [versioned_resources] it found stay, in
    their order, in front of the rows it adds. *)
Theorem addResources_only_appends :
  forall (env : Env) (storage : KisResourceStorage) (resourceType : string)
         (st : State),
    resourcesAppended (db st)
                      (db (snd (fst (addResources env storage resourceType st)))).
Proof.
  intros env storage resourceType st; unfold addResources.
  pose proof (addResourceItems_resourcesAppended
                env storage (storage_resources storage resourceType) st) as H.
  destruct (addResourceItems env storage _ st) as [st1 log]; exact H.
Qed.

(** The outcomes of [addStorage]. *)
Lemma addStorage_cases env storage preinstalled st :
  snd (addStorage env storage preinstalled st) = st
  \/ (select_storage (db st) (storage_location storage) = []
      /\ addStorage env storage preinstalled st
         = (true,
            set_db st
              (effect (InsertStorage (storageTypeValue env (storage_type storage))
                                     (storage_location storage)
                                     (toMSecsSinceEpoch (storage_timestamp storage))
                                     (if preinstalled then 1 else 0) 1)
                      (db st)))).
Proof.
  unfold addStorage.
  destruct (s_valid st); cbn [negb]; [|auto].
  destruct (query env st _); cbn [negb]; [|auto].
  destruct (select_storage _ _); [|auto].
  destruct (prepare env st _); cbn [negb]; [|auto].
  destruct (exec_db env st
              (InsertStorage (storageTypeValue env (storage_type storage))
                 (storage_location storage)
                 (toMSecsSinceEpoch (storage_timestamp storage))
                 (if preinstalled then 1 else 0) 1)) as [E|E]; rewrite E; auto.
Qed.

Lemma addStorage_synchronized env storage preinstalled st :
  storageSynchronized (db st) (db (snd (addStorage env storage preinstalled st))).
Proof.
  destruct (addStorage_cases env storage preinstalled st) as [E|[_ E]]; rewrite E.
  - apply storageSynchronized_refl.
  - cbn [snd db set_db effect].
    repeat split; cbn; try apply grownFrom_refl; apply grownFrom_app.
Qed.

(** X6.  [synchronizeStorage] never removes or rewrites a row, whatever the
    kind of the storage and whatever fails: tags and tag associations are
    untouched, and storages, resources and versions only get rows added at
    the end. *)
Theorem synchronizeStorage_never_deletes :
  forall (env : Env) (storage : KisResourceStorage) (st : State),
    storageSynchronized (db st) (db (snd (fst (synchronizeStorage env storage st)))).
Proof.
  intros env storage st; unfold synchronizeStorage.
  destruct (s_valid st) eqn:Hvalid; cbn [negb]; [|apply storageSynchronized_refl].
  destruct (isFolder (storage_type storage)); cbn [negb].
  - pose proof (synchronizeFolder_resourcesAppended env storage (resourceTypes env) st)
      as H.
    destruct (synchronizeFolder env storage _ st) as [st1 log]; cbn [fst snd] in *.
    now apply resourcesAppended_synchronized.
  - cbv zeta.
    set (rows := if query env st _ then _ else _).
    assert (H1 : storageSynchronized
                   (db st)
                   (db match rows with
                       | [] => snd (addStorage env storage false st)
                       | _ :: _ => st
                       end)).
    { destruct rows; [apply addStorage_synchronized|apply storageSynchronized_refl]. }
    assert (Hsame : forall p,
               snd (addStorage env storage p
                               match rows with
                               | [] => snd (addStorage env storage false st)
                               | _ :: _ => st
                               end)
               = match rows with
                 | [] => snd (addStorage env storage false st)
                 | _ :: _ => st
                 end
               \/ rows = []
                  /\ snd (addStorage env storage false st) = st
                  /\ snd (addStorage env storage p st)
                     = snd (addStorage env storage p
                              match rows with
                              | [] => snd (addStorage env storage false st)
                              | _ :: _ => st
                              end)).
    { intros p.
      destruct rows as [|r rest] eqn:Hrows.
      - destruct (addStorage_cases env storage false st) as [E|[Hnone E]].
        + right; rewrite E; auto.
        + left; rewrite E; cbn [snd].
          apply addStorage_existing.
          unfold select_storage in *; cbn [db set_db effect storages set_storages].
          rewrite filter_app; cbn [filter sr_location].
          rewrite String.eqb_refl.
          intros Habs; apply app_eq_nil in Habs; destruct Habs; discriminate.
      - left; apply addStorage_existing.
        subst rows; destruct (query env st _); [|discriminate].
        rewrite Hrows; discriminate. }
    destruct (_ >? _); cbn [fst snd]; [|exact H1].
    rewrite deleteStorage_fails.
    match goal with |- context [addStorage env storage ?p ?s] =>
      destruct (Hsame p) as [E|(Hrows & E1 & E2)];
      destruct (addStorage env storage p s) as [ra st3] eqn:Ea
    end; cbn [fst snd] in *.
    + rewrite E; exact H1.
    + rewrite <- E2.
      apply addStorage_synchronized.
Qed.

Lemma filter_none {A : Type} (f : A -> bool) (l : list A) :
  (forall x, In x l -> f x = false) -> filter f l = [].
Proof.
  induction l as [|a l IH]; intros H; cbn; [reflexivity|].
  rewrite (H a (or_introl eq_refl)).
  apply IH; intros x Hx; apply H; now right.
Qed.

Lemma select_resource_id_none d filename resourceType :
  (forall r, In r (resources d) -> rr_filename r <> filename)
  \/ (forall t, In t (resource_types d) -> lk_name t <> resourceType) ->
  select_resource_id d filename resourceType = [].
Proof.
  intros H; unfold select_resource_id.
  rewrite filter_none; [reflexivity|].
  intros r Hr.
  destruct H as [H|H].
  - apply (H r) in Hr. apply String.eqb_neq in Hr. now rewrite Hr.
  - replace (hasResourceType d resourceType (rr_resource_type_id r)) with false;
      [now rewrite andb_false_r|].
    symmetry; unfold hasResourceType.
    apply not_true_is_false; intros Hex.
    apply existsb_exists in Hex; destruct Hex as (t & Ht & Hmatch).
    apply andb_prop in Hmatch; destruct Hmatch as [Hname _].
    apply String.eqb_eq in Hname. exact (H t Ht Hname).
Qed.

Lemma resourceIdForResource_none env st filename resourceType :
  select_resource_id (db st) filename resourceType = [] ->
  resourceIdForResource env filename resourceType st = -1.
Proof.
  intros H; unfold resourceIdForResource; rewrite H.
  destruct (_ && _); cbn [negb]; [|reflexivity].
  destruct (query env st _); reflexivity.
Qed.

(** X7.  [resourceIdForResource] answers -1 when no row of [resources]
    carries the file name, or when the resource type has no row in
    [resource_types], whatever the engine does. *)
Theorem resourceIdForResource_not_found :
  forall (env : Env) (st : State) (resourceFileName resourceType : string),
    (forall r, In r (resources (db st)) -> rr_filename r <> resourceFileName)
    \/ (forall t, In t (resource_types (db st)) -> lk_name t <> resourceType) ->
    resourceIdForResource env resourceFileName resourceType st = -1.
Proof.
  intros env st f t H.
  now apply resourceIdForResource_none, select_resource_id_none.
Qed.

Lemma resourceIdForResource_not_found_witness :
  resourceIdForResource workingEnv "basic_tip.gbr" "gradients" cacheWithBrush = -1.
Proof.
  apply (resourceIdForResource_not_found workingEnv cacheWithBrush
                                         "basic_tip.gbr" "gradients").
  right; apply Forall_forall.
  vm_compute.
  repeat (apply Forall_cons; [discriminate|]); apply Forall_nil.
Defined.

(** X8.  [tagResource] fails without touching anything when the index has no
    resource of that name under the storage. *)
Theorem tagResource_unknown_resource :
  forall (env : Env) (storage : KisResourceStorage) (resourceName : string)
         (tag : KisTag) (resourceType : string) (st : State),
    (forall r, In r (resources (db st)) ->
               rr_filename r
               <> storage_location storage ++ "/" ++ resourceType ++ "/" ++ resourceName) ->
    tagResource env storage resourceName tag resourceType st = (false, st).
Proof.
  intros env storage resourceName tag resourceType st H.
  unfold tagResource.
  rewrite resourceIdForResource_none
    by (apply select_resource_id_none; left; exact H).
  reflexivity.
Qed.

Lemma tagResource_unknown_resource_witness :
  tagResource workingEnv folderStorage "missing.gbr" favourites "brushes"
              cacheWithBrush
  = (false, cacheWithBrush).
Proof.
  apply (tagResource_unknown_resource workingEnv folderStorage "missing.gbr"
                                      favourites "brushes" cacheWithBrush).
  apply Forall_forall.
  vm_compute.
  repeat (apply Forall_cons; [discriminate|]); apply Forall_nil.
Defined.

(** The outcomes of [tagResource] and [addTag]. *)
Lemma tagResource_cases env storage resourceName tag resourceType st :
  tagResource env storage resourceName tag resourceType st = (false, st)
  \/ exists tagId,
      tagResource env storage resourceName tag resourceType st
      = (true,
         set_db st
           (effect (InsertResourceTag
                      (resourceIdForResource
                         env (storage_location storage ++ "/" ++ resourceType
                              ++ "/" ++ resourceName) resourceType st)
                      tagId)
                   (db st))).
Proof.
  unfold tagResource.
  destruct (_ <? 0); [auto|].
  match goal with |- context [match ?t with Some _ => _ | None => _ end] =>
    destruct t as [tagId|]
  end; [|auto].
  destruct (prepare env st _); cbn [negb]; [|auto].
  match goal with |- context [exec env st ?s] =>
    destruct (exec_db env st s) as [E|E]; rewrite E
  end; cbn [negb]; [auto|right; now exists tagId].
Qed.

Lemma addTag_cases env resourceType url name comment st :
  snd (addTag env resourceType url name comment st) = st
  \/ addTag env resourceType url name comment st
     = (true, set_db st (effect (InsertTag url name comment resourceType) (db st))).
Proof.
  unfold addTag.
  destruct (hasTag env url resourceType st); [auto|].
  destruct (prepare env st _); cbn [negb]; [|auto].
  match goal with |- context [exec env st ?s] =>
    destruct (exec_db env st s) as [E|E]; rewrite E
  end; auto.
Qed.

Lemma tagResource_tagsAppended env storage resourceName tag resourceType st :
  tagsAppended (db st)
               (db (snd (tagResource env storage resourceName tag resourceType st))).
Proof.
  destruct (tagResource_cases env storage resourceName tag resourceType st)
    as [E|[tagId E]]; rewrite E; cbn [snd db set_db effect].
  - apply tagsAppended_refl.
  - repeat split; cbn; try apply grownFrom_refl; apply grownFrom_app.
Qed.

Lemma addTag_tagsAppended env resourceType url name comment st :
  tagsAppended (db st) (db (snd (addTag env resourceType url name comment st))).
Proof.
  destruct (addTag_cases env resourceType url name comment st) as [E|E]; rewrite E;
    cbn [snd db set_db effect].
  - apply tagsAppended_refl.
  - repeat split; cbn; try apply grownFrom_refl; apply grownFrom_app.
Qed.

Lemma tagResources_tagsAppended env storage names tag resourceType st :
  tagsAppended (db st)
               (db (fst (tagResources env storage names tag resourceType st))).
Proof.
  revert st; induction names as [|n rest IH]; intros st; cbn [tagResources];
    [apply tagsAppended_refl|].
  pose proof (tagResource_tagsAppended env storage n tag resourceType st) as H1.
  destruct (tagResource env storage n tag resourceType st) as [r st1];
    cbn [snd] in H1.
  specialize (IH st1).
  destruct (tagResources env storage rest tag resourceType st1) as [st2 log];
    cbn [fst] in *.
  eapply tagsAppended_trans; eassumption.
Qed.

Lemma addTagItems_tagsAppended env storage resourceType items st :
  tagsAppended (db st) (db (fst (addTagItems env storage resourceType items st))).
Proof.
  revert st; induction items as [|item rest IH]; intros st; cbn [addTagItems];
    [apply tagsAppended_refl|].
  pose proof (addTag_tagsAppended env resourceType (ti_url item) (ti_name item)
                                  (ti_comment item) st) as H1.
  destruct (addTag env resourceType _ _ _ st) as [r st1]; cbn [snd] in H1.
  pose proof (tagResources_tagsAppended
                env storage (tag_defaultResources (ti_tag item)) (ti_tag item)
                resourceType st1) as H2.
  destruct (tagResources env storage _ _ resourceType st1) as [st2 log2];
    cbn [fst] in H2.
  specialize (IH st2).
  destruct (addTagItems env storage resourceType rest st2) as [st3 log3];
    cbn [fst] in *.
  eapply tagsAppended_trans; [exact H1|].
  eapply tagsAppended_trans; eassumption.
Qed.

(** X9.  [addTags] only ever appends to [tags] and [resource_tags]: schema,
    lookup tables, storages, resources and versions are as before, and the
    tags and associations it found stay in front of those it adds. *)
Theorem addTags_only_appends :
  forall (env : Env) (storage : KisResourceStorage) (resourceType : string)
         (st : State),
    tagsAppended (db st) (db (snd (fst (addTags env storage resourceType st)))).
Proof.
  intros env storage resourceType st; unfold addTags.
  pose proof (addTagItems_tagsAppended
                env storage resourceType (storage_tags storage resourceType) st) as H.
  destruct (addTagItems env storage resourceType _ st) as [st1 log]; exact H.
Qed.

(** A statement runs on an open database that has its tables, when it is
    well formed and the engine carries it out. *)
Lemma statement_runs env st s :
  isOpen st = true ->
  carriesOut env s ->
  wellFormed s = true ->
  forallb (contains (dbTables (db st))) (tablesOf s) = true ->
  prepare env st s = true /\ query env st s = true
  /\ exec env st s = (true, set_db st (effect s (db st))).
Proof.
  intros Hopen Hcarry Hwf Htabs.
  destruct (Hcarry (db st)) as [Hp He].
  unfold exec, query, prepare.
  rewrite Hopen, Hwf, Htabs, Hp, He; auto.
Qed.

Lemma tagResource_succeeds env storage resourceName tag resourceType st id ids tid tids :
  fileOpens env ":/select_resource_id.sql" = true ->
  fileOpens env ":/select_tag.sql" = true ->
  isOpen st = true ->
  forallb (contains (dbTables (db st)))
          ["resources"; "resource_types"; "tags"; "resource_tags"] = true ->
  carriesOut env (SelectResourceId
                    (storage_location storage ++ "/" ++ resourceType ++ "/" ++ resourceName)
                    resourceType) ->
  carriesOut env (SelectTag (tag_url tag) resourceType) ->
  carriesOut env (InsertResourceTag id tid) ->
  select_resource_id
    (db st) (storage_location storage ++ "/" ++ resourceType ++ "/" ++ resourceName)
    resourceType = id :: ids ->
  select_tag (db st) (tag_url tag) resourceType = tid :: tids ->
  0 <= id < 2 ^ 31 ->
  - 2 ^ 31 <= tid < 2 ^ 31 ->
  tagResource env storage resourceName tag resourceType st
  = (true, set_db st (effect (InsertResourceTag id tid) (db st))).
Proof.
  intros Hf1 Hf2 Hopen Htabs Hc1 Hc2 Hc3 Hres Htag Hid Htid.
  cbn [forallb] in Htabs.
  apply andb_prop in Htabs; destruct Htabs as [T1 Htabs].
  apply andb_prop in Htabs; destruct Htabs as [T2 Htabs].
  apply andb_prop in Htabs; destruct Htabs as [T3 Htabs].
  apply andb_prop in Htabs; destruct Htabs as [T4 _].
  destruct (statement_runs env st _ Hopen Hc1) as (P1 & Q1 & _);
    [reflexivity|cbn [tablesOf forallb]; now rewrite T1, T2|].
  destruct (statement_runs env st _ Hopen Hc2) as (P2 & Q2 & _);
    [reflexivity|cbn [tablesOf forallb]; now rewrite T3, T2|].
  destruct (statement_runs env st _ Hopen Hc3) as (P3 & Q3 & E3);
    [vm_compute; reflexivity|cbn [tablesOf forallb]; now rewrite T4|].
  unfold tagResource, resourceIdForResource.
  rewrite Hf1, Hf2, P1, Q1, P2, Q2, Hres, Htag; cbn [andb negb toInt].
  rewrite (wrap32_small id) by lia.
  rewrite (wrap32_small tid) by lia.
  replace (id <? 0) with false by (symmetry; apply Z.ltb_ge; lia).
  rewrite P3, E3; reflexivity.
Qed.

(** X10.  [tagResource] has no guard against a repeated association: with the
    resource and the tag in the index and the engine carrying the statements
    out, two calls both succeed and leave the same (resource, tag) pair
    twice at the end of [resource_tags]. *)
Theorem tagResource_twice_duplicates :
  forall (env : Env) (storage : KisResourceStorage) (resourceName : string)
         (tag : KisTag) (resourceType : string) (st : State)
         (id tid : Z) (ids tids : list Z),
    fileOpens env ":/select_resource_id.sql" = true ->
    fileOpens env ":/select_tag.sql" = true ->
    isOpen st = true ->
    forallb (contains (dbTables (db st)))
            ["resources"; "resource_types"; "tags"; "resource_tags"] = true ->
    carriesOut env (SelectResourceId
                      (storage_location storage ++ "/" ++ resourceType ++ "/"
                       ++ resourceName) resourceType) ->
    carriesOut env (SelectTag (tag_url tag) resourceType) ->
    carriesOut env (InsertResourceTag id tid) ->
    select_resource_id
      (db st) (storage_location storage ++ "/" ++ resourceType ++ "/" ++ resourceName)
      resourceType = id :: ids ->
    select_tag (db st) (tag_url tag) resourceType = tid :: tids ->
    0 <= id < 2 ^ 31 ->
    - 2 ^ 31 <= tid < 2 ^ 31 ->
    let first := tagResource env storage resourceName tag resourceType st in
    let second := tagResource env storage resourceName tag resourceType (snd first) in
    fst first = true /\ fst second = true
    /\ resource_tags (db (snd second))
       = (resource_tags (db st) ++ [mkResourceTag id tid; mkResourceTag id tid])%list.
Proof.
  intros env storage resourceName tag resourceType st id tid ids tids
         Hf1 Hf2 Hopen Htabs Hc1 Hc2 Hc3 Hres Htag Hid Htid; cbv zeta.
  rewrite (tagResource_succeeds env storage resourceName tag resourceType st
             id ids tid tids) by assumption.
  cbn [fst snd].
  rewrite (tagResource_succeeds env storage resourceName tag resourceType _
             id ids tid tids) by assumption.
  cbn [fst snd db set_db effect resource_tags set_resource_tags].
  rewrite <- app_assoc; auto.
Qed.

Lemma tagResource_twice_duplicates_witness :
  fst (tagResource workingEnv folderStorage "basic_tip.gbr" favourites "brushes"
                   taggableCache) = true
  /\ fst (tagResource workingEnv folderStorage "basic_tip.gbr" favourites "brushes"
                      (snd (tagResource workingEnv folderStorage "basic_tip.gbr"
                                        favourites "brushes" taggableCache))) = true
  /\ resource_tags
       (db (snd (tagResource workingEnv folderStorage "basic_tip.gbr" favourites
                             "brushes"
                             (snd (tagResource workingEnv folderStorage "basic_tip.gbr"
                                               favourites "brushes" taggableCache)))))
     = (resource_tags (db taggableCache) ++ [mkResourceTag 1 1; mkResourceTag 1 1])%list.
Proof.
  apply (tagResource_twice_duplicates
           workingEnv folderStorage "basic_tip.gbr" favourites "brushes" taggableCache
           1 1 [] []);
    try (vm_compute; reflexivity);
    try (intros d; split; reflexivity);
    try (vm_compute; split; [discriminate|reflexivity]).
Defined.

Lemma select_storage_after_insert d code location ts flag active :
  select_storage d location = [] ->
  select_storage (effect (InsertStorage code location ts flag active) d) location
  = [mkStorageRow (nextId (map sr_id (storages d))) code location ts flag active].
Proof.
  intros Hnone; unfold select_storage in *.
  cbn [effect storages set_storages].
  rewrite filter_app, Hnone; cbn [filter sr_location app].
  now rewrite String.eqb_refl.
Qed.

Lemma addStorage_inserts env storage (preinstalled : bool) st :
  s_valid st = true ->
  isOpen st = true ->
  contains (dbTables (db st)) "storages" = true ->
  carriesOut env (SelectStorage (storage_location storage)) ->
  carriesOut env (InsertStorage (storageTypeValue env (storage_type storage))
                                (storage_location storage)
                                (toMSecsSinceEpoch (storage_timestamp storage))
                                (if preinstalled then 1 else 0) 1) ->
  select_storage (db st) (storage_location storage) = [] ->
  addStorage env storage preinstalled st
  = (true,
     set_db st
       (effect (InsertStorage (storageTypeValue env (storage_type storage))
                              (storage_location storage)
                              (toMSecsSinceEpoch (storage_timestamp storage))
                              (if preinstalled then 1 else 0) 1)
               (db st))).
Proof.
  intros Hvalid Hopen Htable Hsel Hins Hnone.
  destruct (statement_runs env st _ Hopen Hsel) as (_ & Q1 & _);
    [vm_compute; reflexivity|cbn [tablesOf forallb]; now rewrite Htable|].
  destruct (statement_runs env st _ Hopen Hins) as (P2 & _ & E2);
    [vm_compute; reflexivity|cbn [tablesOf forallb]; now rewrite Htable|].
  unfold addStorage.
  rewrite Hvalid, Q1, Hnone, P2; cbn [negb].
  exact E2.
Qed.

Lemma addStorage_found env storage (preinstalled : bool) st :
  s_valid st = true ->
  isOpen st = true ->
  contains (dbTables (db st)) "storages" = true ->
  carriesOut env (SelectStorage (storage_location storage)) ->
  select_storage (db st) (storage_location storage) <> [] ->
  addStorage env storage preinstalled st = (true, st).
Proof.
  intros Hvalid Hopen Htable Hsel Hrow.
  destruct (statement_runs env st _ Hopen Hsel) as (_ & Q1 & _);
    [vm_compute; reflexivity|cbn [tablesOf forallb]; now rewrite Htable|].
  unfold addStorage.
  rewrite Hvalid, Q1; cbn [negb].
  destruct (select_storage _ _); [contradiction|reflexivity].
Qed.

(** X11.  Registering and finding a storage: on a valid cache that does not
    know the location, with the engine carrying the two statements out,
    [addStorage] succeeds; the lookup by location then yields exactly one
    row, carrying the type code, the timestamp in milliseconds, the
    preinstalled flag and active = 1; and any further [addStorage] for the
    location succeeds without changing anything, whatever flag it is given. *)
Theorem addStorage_round_trip :
  forall (env : Env) (storage : KisResourceStorage) (preinstalled : bool)
         (st : State),
    s_valid st = true ->
    isOpen st = true ->
    contains (dbTables (db st)) "storages" = true ->
    carriesOut env (SelectStorage (storage_location storage)) ->
    carriesOut env (InsertStorage (storageTypeValue env (storage_type storage))
                                  (storage_location storage)
                                  (toMSecsSinceEpoch (storage_timestamp storage))
                                  (if preinstalled then 1 else 0) 1) ->
    select_storage (db st) (storage_location storage) = [] ->
    let result := addStorage env storage preinstalled st in
    fst result = true
    /\ select_storage (db (snd result)) (storage_location storage)
       = [storageRowFor env storage preinstalled (db st)]
    /\ forall again : bool, addStorage env storage again (snd result)
                            = (true, snd result).
Proof.
  intros env storage preinstalled st Hvalid Hopen Htable Hsel Hins Hnone; cbv zeta.
  rewrite (addStorage_inserts env storage preinstalled st) by assumption.
  cbn [fst snd db set_db].
  split; [reflexivity|].
  split; [now apply select_storage_after_insert|].
  intros again; apply addStorage_found; try assumption.
  cbn [db set_db]; rewrite select_storage_after_insert by assumption; discriminate.
Qed.

Lemma addStorage_round_trip_witness :
  fst (addStorage workingEnv (bundleStorage 2000000) true freshCache) = true
  /\ select_storage
       (db (snd (addStorage workingEnv (bundleStorage 2000000) true freshCache)))
       (storage_location (bundleStorage 2000000))
     = [storageRowFor workingEnv (bundleStorage 2000000) true (db freshCache)]
  /\ forall again : bool,
      addStorage workingEnv (bundleStorage 2000000) again
                 (snd (addStorage workingEnv (bundleStorage 2000000) true freshCache))
      = (true, snd (addStorage workingEnv (bundleStorage 2000000) true freshCache)).
Proof.
  apply (addStorage_round_trip workingEnv (bundleStorage 2000000) true freshCache);
    try (vm_compute; reflexivity);
    intros d; split; reflexivity.
Defined.

(** X12.  A container storage the cache does not know yet is registered by
    [synchronizeStorage] as not preinstalled: afterwards the lookup by
    location yields exactly the row [addStorage] writes with the flag
    false, and nothing else has changed.  The call reports success, and the
    log holds the complaint about the timestamp that could not be read. *)
Theorem synchronizeStorage_registers_new_container :
  forall (env : Env) (storage : KisResourceStorage) (st : State),
    s_valid st = true ->
    isFolder (storage_type storage) = false ->
    isOpen st = true ->
    contains (dbTables (db st)) "storages" = true ->
    carriesOut env (SelectStorageTimestamp (storage_location storage)) ->
    carriesOut env (SelectStorage (storage_location storage)) ->
    carriesOut env (InsertStorage (storageTypeValue env (storage_type storage))
                                  (storage_location storage)
                                  (toMSecsSinceEpoch (storage_timestamp storage))
                                  0 1) ->
    select_storage (db st) (storage_location storage) = [] ->
    let result := synchronizeStorage env storage st in
    fst (fst result) = true
    /\ snd (fst result)
       = set_db st (set_storages (db st)
                                 (storages (db st)
                                  ++ [storageRowFor env storage false (db st)])%list)
    /\ select_storage (db (snd (fst result))) (storage_location storage)
       = [storageRowFor env storage false (db st)]
    /\ In "Could not retrieve timestamp for storage" (snd result).
Proof.
  intros env storage st Hvalid Hkind Hopen Htable Hts Hsel Hins Hnone; cbv zeta.
  destruct (statement_runs env st _ Hopen Hts) as (P1 & Q1 & _);
    [vm_compute; reflexivity|cbn [tablesOf forallb]; now rewrite Htable|].
  pose proof (addStorage_inserts env storage false st
                                 Hvalid Hopen Htable Hsel Hins Hnone) as Eadd.
  set (st' := set_db st
                (effect (InsertStorage (storageTypeValue env (storage_type storage))
                           (storage_location storage)
                           (toMSecsSinceEpoch (storage_timestamp storage)) 0 1)
                        (db st))) in *.
  assert (Hrow : select_storage (db st') (storage_location storage)
                 = [storageRowFor env storage false (db st)])
    by (apply select_storage_after_insert; exact Hnone).
  assert (Eagain : forall p, addStorage env storage p st' = (true, st')).
  { intros p; apply addStorage_found; try assumption.
    rewrite Hrow; discriminate. }
  unfold synchronizeStorage.
  rewrite Hvalid, Hkind, P1, Q1, Hnone; cbn [negb].
  rewrite Eadd; cbn [snd toInt isValidVariant warnUnless toBool].
  destruct (_ >? 0).
  - rewrite deleteStorage_fails, Eagain; cbn [fst snd warnUnless List.concat app].
    repeat split; try assumption; try reflexivity; now left.
  - cbn [fst snd List.concat app].
    repeat split; try assumption; try reflexivity; now left.
Qed.

Lemma synchronizeStorage_registers_new_container_witness :
  fst (fst (synchronizeStorage workingEnv (bundleStorage 2000000) freshCache)) = true
  /\ snd (fst (synchronizeStorage workingEnv (bundleStorage 2000000) freshCache))
     = set_db freshCache
         (set_storages (db freshCache)
            (storages (db freshCache)
             ++ [storageRowFor workingEnv (bundleStorage 2000000) false
                               (db freshCache)])%list)
  /\ select_storage
       (db (snd (fst (synchronizeStorage workingEnv (bundleStorage 2000000)
                                         freshCache))))
       (storage_location (bundleStorage 2000000))
     = [storageRowFor workingEnv (bundleStorage 2000000) false (db freshCache)]
  /\ In "Could not retrieve timestamp for storage"
        (snd (synchronizeStorage workingEnv (bundleStorage 2000000) freshCache)).
Proof.
  apply (synchronizeStorage_registers_new_container
           workingEnv (bundleStorage 2000000) freshCache);
    try (vm_compute; reflexivity);
    intros d; split; reflexivity.
Defined.

Lemma select_resource_id_after_insert d resourceType n filename tooltip thumbnail status :
  resourceTypeId d resourceType <> None ->
  select_resource_id d filename resourceType = [] ->
  select_resource_id
    (effect (InsertResource resourceType n filename tooltip thumbnail status) d)
    filename resourceType
  = [nextId (map rr_id (resources d))].
Proof.
  intros Hreg Hnone.
  destruct (resourceTypeId d resourceType) as [id|] eqn:Eid; [|contradiction].
  unfold select_resource_id in *; cbn [effect resources set_resources].
  rewrite filter_app, map_app.
  apply map_eq_nil in Hnone.
  replace (filter _ (resources d)) with (@nil ResourceRow) by (symmetry; exact Hnone).
  cbn [filter rr_filename rr_resource_type_id map app].
  rewrite String.eqb_refl; cbn [andb].
  replace (hasResourceType _ resourceType (resourceTypeId d resourceType)) with true;
    [reflexivity|].
  rewrite Eid; symmetry.
  exact (resourceTypeId_has d resourceType id Eid).
Qed.

(** X13.  The first [addResource] of a resource: on a valid cache that has no
    row for (filename, resourceType), with a valid resource and the engine
    carrying the two insertions out, the call succeeds; [resources] gets one
    row (status 1, the type resolved by name), [versioned_resources] gets
    one row numbered 1 with the timestamp in seconds and the checksum, filed
    under the resource id -1, the "not found" answer of the lookup, not
    under the id of the new row; and for a registered type the lookup by
    (filename, resourceType) now yields the new id. *)
Theorem addResource_new_resource :
  forall (env : Env) (storage : KisResourceStorage) (timestamp : QDateTime)
         (res : KoResource) (resourceType : string) (st : State),
    s_valid st = true ->
    res_valid res = true ->
    isOpen st = true ->
    forallb (contains (dbTables (db st)))
            ["resources"; "resource_types"; "versioned_resources"; "storages"] = true ->
    carriesOut env (InsertResource resourceType (res_name res) (res_filename res)
                                   (i18n env (res_name res)) (res_image res) 1) ->
    carriesOut env (InsertFirstVersion (-1) (storage_location storage)
                                       (res_filename res)
                                       (toSecsSinceEpoch timestamp) (res_md5 res)) ->
    resourceTypeId (db st) resourceType <> None ->
    select_resource_id (db st) (res_filename res) resourceType = [] ->
    let result := addResource env storage timestamp (Some res) resourceType st in
    fst result = true
    /\ resources (db (snd result))
       = (resources (db st) ++ [resourceRowFor env res resourceType (db st)])%list
    /\ versioned_resources (db (snd result))
       = (versioned_resources (db st)
          ++ [mkVersionedRow (-1) (storageIdAt (db st) (storage_location storage))
                             (Some 1) (res_filename res)
                             (toSecsSinceEpoch timestamp) 0 (res_md5 res)])%list
    /\ select_resource_id (db (snd result)) (res_filename res) resourceType
       = [nextId (map rr_id (resources (db st)))].
Proof.
  intros env storage timestamp res resourceType st
         Hvalid Hres Hopen Htabs Hc1 Hc2 Hreg Hnone; cbv zeta.
  cbn [forallb] in Htabs.
  apply andb_prop in Htabs; destruct Htabs as [T1 Htabs].
  apply andb_prop in Htabs; destruct Htabs as [T2 Htabs].
  apply andb_prop in Htabs; destruct Htabs as [T3 Htabs].
  apply andb_prop in Htabs; destruct Htabs as [T4 _].
  destruct (statement_runs env st _ Hopen Hc1) as (P1 & _ & E1);
    [vm_compute; reflexivity|cbn [tablesOf forallb]; now rewrite T1, T2|].
  set (st1 := set_db st
                (effect (InsertResource resourceType (res_name res) (res_filename res)
                           (i18n env (res_name res)) (res_image res) 1) (db st))) in *.
  destruct (statement_runs env st1 _ Hopen Hc2) as (P2 & _ & E2);
    [vm_compute; reflexivity
    |unfold st1; cbn [tablesOf forallb db set_db effect set_resources dbTables];
     now rewrite T3, T4|].
  unfold addResource.
  rewrite Hvalid, Hres, (resourceIdForResource_none env st _ _ Hnone); cbn [negb].
  change (-1 >? -1) with false; cbv iota.
  rewrite P1, E1; cbn [negb].
  rewrite P2, E2; cbn [negb fst snd].
  repeat split.
  cbn [db set_db effect resources set_versioned_resources].
  now apply select_resource_id_after_insert.
Qed.

Lemma addResource_new_resource_witness :
  fst (addResource workingEnv folderStorage 100000 (Some (brush "c1")) "brushes"
                   cacheWithFolder) = true
  /\ resources (db (snd (addResource workingEnv folderStorage 100000
                                     (Some (brush "c1")) "brushes" cacheWithFolder)))
     = (resources (db cacheWithFolder)
        ++ [resourceRowFor workingEnv (brush "c1") "brushes" (db cacheWithFolder)])%list
  /\ versioned_resources
       (db (snd (addResource workingEnv folderStorage 100000 (Some (brush "c1"))
                             "brushes" cacheWithFolder)))
     = (versioned_resources (db cacheWithFolder)
        ++ [mkVersionedRow (-1) (storageIdAt (db cacheWithFolder)
                                             (storage_location folderStorage))
                           (Some 1) (res_filename (brush "c1"))
                           (toSecsSinceEpoch 100000) 0 (res_md5 (brush "c1"))])%list
  /\ select_resource_id
       (db (snd (addResource workingEnv folderStorage 100000 (Some (brush "c1"))
                             "brushes" cacheWithFolder)))
       (res_filename (brush "c1")) "brushes"
     = [nextId (map rr_id (resources (db cacheWithFolder)))].
Proof.
  apply (addResource_new_resource workingEnv folderStorage 100000 (brush "c1")
                                  "brushes" cacheWithFolder);
    try (vm_compute; reflexivity);
    try (intros d; split; reflexivity).
  vm_compute; discriminate.
Defined.

Lemma addResourceVersion_keeps_resources env resourceId timestamp storage resource st :
  resources (db (snd (addResourceVersion env resourceId timestamp storage resource st)))
  = resources (db st).
Proof.
  unfold addResourceVersion.
  destruct (prepare env st _); cbn [negb]; [|reflexivity].
  match goal with |- context [exec env st ?s] =>
    destruct (exec_db env st s) as [E|E]; rewrite E
  end; cbn [negb]; [reflexivity|].
  rewrite prepare_malformed by apply update_statement_malformed.
  reflexivity.
Qed.

(** X14.  For a resource the lookup finds, [addResource] never writes to
    [resources]: name, tooltip and thumbnail of the row stay what they were,
    also when a newer file brings new ones, since the [UPDATE] of
    [addResourceVersion] is never carried out. *)
Theorem addResource_existing_keeps_resources :
  forall (env : Env) (storage : KisResourceStorage) (timestamp : QDateTime)
         (resource : KoResourceSP) (resourceType : string) (st : State),
    (forall res, resource = Some res ->
                 resourceIdForResource env (res_filename res) resourceType st > -1) ->
    resources (db (snd (addResource env storage timestamp resource resourceType st)))
    = resources (db st).
Proof.
  intros env storage timestamp resource resourceType st Hfound.
  unfold addResource.
  destruct (s_valid st); cbn [negb]; [|reflexivity].
  destruct resource as [res|]; [|reflexivity].
  destruct (res_valid res); cbn [negb]; [|reflexivity].
  specialize (Hfound res eq_refl).
  replace (resourceIdForResource env (res_filename res) resourceType st >? -1)
    with true by (symmetry; rewrite Z.gtb_ltb, Z.ltb_lt; lia).
  assert (Hlast : forall st1 s,
             resources (db st1) = resources (db st) ->
             (exists a b c d e, s = InsertFirstVersion a b c d e) ->
             resources (db (snd (if negb (prepare env st1 s) then (false, st1)
                                 else exec env st1 s)))
             = resources (db st)).
  { intros st1 s H1 (a & b & c & d & e & Hs); subst s.
    destruct (prepare env st1 _); cbn [negb]; [|exact H1].
    destruct (exec_db env st1 (InsertFirstVersion a b c d e)) as [E|E]; rewrite E;
      exact H1. }
  destruct (fst (resourceNeedsUpdating env _ timestamp st)).
  - apply Hlast; [apply addResourceVersion_keeps_resources|].
    repeat eexists.
  - apply Hlast; [reflexivity|repeat eexists].
Qed.

Lemma addResource_existing_keeps_resources_witness :
  resources (db (snd (addResource workingEnv folderStorage 200000
                                  (Some renamedBrush) "brushes" cacheWithBrush)))
  = resources (db cacheWithBrush).
Proof.
  apply (addResource_existing_keeps_resources
           workingEnv folderStorage 200000 (Some renamedBrush) "brushes"
           cacheWithBrush).
  intros res Hres; injection Hres as Hres; subst res.
  vm_compute; reflexivity.
Defined.

Lemma addResourceItems_invalid env storage items st :
  s_valid st = false ->
  fst (addResourceItems env storage items st) = st
  /\ forall item res,
       In item items ->
       ri_resource item = Some res ->
       In ("Could not add resource " ++ res_filename res ++ " to the database")
          (snd (addResourceItems env storage items st)).
Proof.
  intros Hinvalid; induction items as [|item rest [IH1 IH2]];
    cbn [addResourceItems]; [split; [reflexivity|intros ? ? []]|].
  destruct (ri_resource item) as [res|] eqn:Hitem.
  - rewrite addResource_refuses_invalid by exact Hinvalid.
    destruct (addResourceItems env storage rest st) as [st2 log];
      cbn [fst snd warnUnless app] in *.
    split; [exact IH1|].
    intros item' res' [Hhere|Hrest] Hres'.
    + subst item'; rewrite Hitem in Hres'; injection Hres' as Hres'; subst res'.
      left; reflexivity.
    + right; exact (IH2 item' res' Hrest Hres').
  - split; [exact IH1|].
    intros item' res' [Hhere|Hrest] Hres'.
    + subst item'; rewrite Hitem in Hres'; discriminate.
    + exact (IH2 item' res' Hrest Hres').
Qed.

(** X15.  On a cache that is not valid [addResources] still returns true and
    changes nothing; the failure shows in the log only, where the loop
    leaves its warning [Could not add resource <filename> to the database]
    for every resource the storage could load. *)
Theorem addResources_on_invalid_cache :
  forall (env : Env) (storage : KisResourceStorage) (resourceType : string)
         (st : State),
    s_valid st = false ->
    fst (addResources env storage resourceType st) = (true, st)
    /\ forall item res,
         In item (storage_resources storage resourceType) ->
         ri_resource item = Some res ->
         In ("Could not add resource " ++ res_filename res ++ " to the database")
            (snd (addResources env storage resourceType st)).
Proof.
  intros env storage resourceType st Hinvalid; unfold addResources.
  destruct (addResourceItems_invalid
              env storage (storage_resources storage resourceType) st Hinvalid)
    as [H1 H2].
  destruct (addResourceItems env storage _ st) as [st1 log]; cbn [fst snd] in *.
  split; [now subst st1|exact H2].
Qed.

Lemma addResources_on_invalid_cache_witness :
  fst (addResources workingEnv unreadableFolder "brushes" (startState emptyDB))
  = (true, startState emptyDB)
  /\ In "Could not add resource a.gbr to the database"
        (snd (addResources workingEnv unreadableFolder "brushes"
                           (startState emptyDB)))
  /\ In "Could not add resource b.gbr to the database"
        (snd (addResources workingEnv unreadableFolder "brushes"
                           (startState emptyDB))).
Proof.
  destruct (addResources_on_invalid_cache workingEnv unreadableFolder "brushes"
                                          (startState emptyDB) eq_refl)
    as [Hsame Hlog].
  split; [exact Hsame|split].
  - apply (Hlog (mkResourceItem (Some (mkResource false "" "a.gbr" "" ""))
                                100000 "brushes")
                (mkResource false "" "a.gbr" "" ""));
      [left; reflexivity|reflexivity].
  - apply (Hlog (mkResourceItem (Some (mkResource false "" "b.gbr" "" ""))
                                100000 "brushes")
                (mkResource false "" "b.gbr" "" ""));
      [right; left; reflexivity|reflexivity].
Defined.

Lemma select_latest_timestamp_newest d resourceId m r :
  maxVersion d resourceId = Some m ->
  In r (versionsOf d resourceId) ->
  vr_version r = Some m ->
  (forall r', In r' (versionsOf d resourceId) ->
              vr_version r' = Some m -> vr_timestamp r' = vr_timestamp r) ->
  exists rest, select_latest_timestamp d resourceId = vr_timestamp r :: rest.
Proof.
  intros Hmax Hin Hver Hsame; unfold select_latest_timestamp; rewrite Hmax.
  set (newest := fun x => match vr_version x with
                          | Some v => v =? m
                          | None => false
                          end).
  assert (Hall : forall x, In x (filter newest (versionsOf d resourceId)) ->
                           vr_timestamp x = vr_timestamp r).
  { intros x Hx; apply filter_In in Hx; destruct Hx as [Hx Hn].
    apply Hsame; [exact Hx|].
    unfold newest in Hn; destruct (vr_version x) as [v|]; [|discriminate].
    apply Z.eqb_eq in Hn; now subst v. }
  assert (Hr : In r (filter newest (versionsOf d resourceId))).
  { apply filter_In; split; [exact Hin|].
    unfold newest; rewrite Hver; apply Z.eqb_refl. }
  destruct (filter newest (versionsOf d resourceId)) as [|x xs]; [contradiction|].
  cbn [map]; rewrite (Hall x (or_introl eq_refl)).
  now exists (map vr_timestamp xs).
Qed.

(** X16.  [resourceNeedsUpdating] compares with the newest version: when the
    query runs, the rows of the resource that carry its largest version
    number agree on a timestamp, and that timestamp fits an [int], the
    answer is true exactly when the candidate, cut to whole seconds, is
    strictly greater. *)
Theorem resourceNeedsUpdating_compares_with_newest :
  forall (env : Env) (resourceId : Z) (timestamp : QDateTime) (st : State)
         (m : Z) (r : VersionedResourceRow),
    query env st (SelectLatestTimestamp resourceId) = true ->
    maxVersion (db st) resourceId = Some m ->
    In r (versionsOf (db st) resourceId) ->
    vr_version r = Some m ->
    (forall r', In r' (versionsOf (db st) resourceId) ->
                vr_version r' = Some m -> vr_timestamp r' = vr_timestamp r) ->
    - 2 ^ 31 <= vr_timestamp r < 2 ^ 31 ->
    fst (resourceNeedsUpdating env resourceId timestamp st) = true
    <-> toSecsSinceEpoch timestamp > vr_timestamp r.
Proof.
  intros env resourceId timestamp st m r Hq Hmax Hin Hver Hsame Hrange.
  destruct (select_latest_timestamp_newest (db st) resourceId m r
              Hmax Hin Hver Hsame) as [rest Hsel].
  exact (resourceNeedsUpdating_in_range env resourceId timestamp st
                                        (vr_timestamp r) rest Hq Hsel Hrange).
Qed.

(** A file of second 100 and 999 milliseconds is not newer than the version
    of second 100; one of second 101 is. *)
Lemma resourceNeedsUpdating_compares_with_newest_witness :
  (fst (resourceNeedsUpdating workingEnv 1 100999 cacheWithBrush) = true
   <-> toSecsSinceEpoch 100999 > vr_timestamp brushVersion)
  /\ (fst (resourceNeedsUpdating workingEnv 1 101000 cacheWithBrush) = true
      <-> toSecsSinceEpoch 101000 > vr_timestamp brushVersion).
Proof.
  assert (Hsame : forall r', In r' (versionsOf (db cacheWithBrush) 1) ->
                             vr_version r' = Some 1 ->
                             vr_timestamp r' = vr_timestamp brushVersion).
  { apply (proj1 (Forall_forall
                    (fun r' => vr_version r' = Some 1 ->
                               vr_timestamp r' = vr_timestamp brushVersion)
                    (versionsOf (db cacheWithBrush) 1))).
    vm_compute.
    repeat (apply Forall_cons; [intros _; reflexivity|]); apply Forall_nil. }
  split;
    apply (resourceNeedsUpdating_compares_with_newest
             workingEnv 1 _ cacheWithBrush 1 brushVersion);
    [vm_compute; reflexivity
    |vm_compute; reflexivity
    |vm_compute; left; reflexivity
    |reflexivity
    |exact Hsame
    |vm_compute; split; [discriminate|reflexivity]
    |vm_compute; reflexivity
    |vm_compute; reflexivity
    |vm_compute; left; reflexivity
    |reflexivity
    |exact Hsame
    |vm_compute; split; [discriminate|reflexivity]].
Defined.

Lemma fold_max_from l (v : option Z) :
  fold_right (fun r acc => maxOpt (vr_version r) acc) v l
  = maxOpt (fold_right (fun r acc => maxOpt (vr_version r) acc) None l) v.
Proof.
  induction l as [|r l IH]; cbn [fold_right].
  - destruct v; reflexivity.
  - rewrite IH.
    destruct (vr_version r), (fold_right _ None l), v; cbn; try reflexivity.
    now rewrite Z.max_assoc.
Qed.

Lemma maxVersion_bound d resourceId m r v :
  maxVersion d resourceId = Some m ->
  In r (versionsOf d resourceId) ->
  vr_version r = Some v ->
  v <= m.
Proof.
  unfold maxVersion; generalize (versionsOf d resourceId) as l.
  intros l; revert m; induction l as [|x l IH]; intros m Hmax Hin Hver;
    [contradiction|].
  cbn [fold_right] in Hmax.
  destruct Hin as [E|Hin].
  - subst x; rewrite Hver in Hmax.
    destruct (fold_right _ None l); cbn in Hmax; injection Hmax as Hmax; lia.
  - destruct (fold_right _ None l) as [m'|] eqn:El.
    + specialize (IH m' eq_refl Hin Hver).
      destruct (vr_version x); cbn in Hmax; injection Hmax as Hmax; lia.
    + clear IH Hmax. exfalso.
      revert El; clear -Hin Hver.
      induction l as [|y l IH]; [contradiction|].
      cbn [fold_right]; destruct Hin as [E|Hin].
      * subst y; rewrite Hver. destruct (fold_right _ None l); discriminate.
      * intros El. destruct (fold_right _ None l) as [k|].
        -- destruct (vr_version y); discriminate.
        -- now apply IH.
Qed.

Lemma versionsOf_after_insert d resourceId storageLocation location timestamp checksum :
  versionsOf
    (effect (InsertNextVersion resourceId storageLocation location timestamp checksum) d)
    resourceId
  = (versionsOf d resourceId
     ++ [mkVersionedRow resourceId (storageIdAt d storageLocation)
                        (option_map (fun m => m + 1) (maxVersion d resourceId))
                        location timestamp 0 checksum])%list.
Proof.
  unfold versionsOf; cbn [effect versioned_resources set_versioned_resources].
  rewrite filter_app; cbn [filter vr_resource_id].
  now rewrite Z.eqb_refl.
Qed.

Lemma maxVersion_after_insert d resourceId storageLocation location timestamp checksum m :
  maxVersion d resourceId = Some m ->
  maxVersion
    (effect (InsertNextVersion resourceId storageLocation location timestamp checksum) d)
    resourceId
  = Some (m + 1).
Proof.
  intros Hmax; unfold maxVersion at 1.
  rewrite versionsOf_after_insert, fold_right_app; cbn [fold_right vr_version].
  rewrite Hmax; cbn [option_map maxOpt].
  rewrite fold_max_from.
  fold (maxVersion d resourceId); rewrite Hmax; cbn [maxOpt].
  f_equal; lia.
Qed.

Lemma addResourceVersion_inserts env resourceId timestamp storage resource st :
  query env st (InsertNextVersion resourceId (storage_location storage)
                                  (res_filename resource)
                                  (toSecsSinceEpoch timestamp) (res_md5 resource))
  = true ->
  addResourceVersion env resourceId timestamp storage resource st
  = (false,
     set_db st
       (effect (InsertNextVersion resourceId (storage_location storage)
                                  (res_filename resource)
                                  (toSecsSinceEpoch timestamp) (res_md5 resource))
               (db st))).
Proof.
  intros Hq; unfold addResourceVersion, exec.
  rewrite (query_prepare _ _ _ Hq), Hq; cbn [negb].
  rewrite prepare_malformed by apply update_statement_malformed.
  reflexivity.
Qed.

(** X17.  When the insertion of [addResourceVersion] is carried out for a
    resource whose largest version number is m, the resource has one more
    version row, numbered m + 1 and last, the largest number is now m + 1,
    [resources] is as before - and the function reports failure all the
    same, as it does on every path. *)
Theorem addResourceVersion_bumps_max_version :
  forall (env : Env) (resourceId : Z) (timestamp : QDateTime)
         (storage : KisResourceStorage) (resource : KoResource) (st : State)
         (m : Z),
    query env st (InsertNextVersion resourceId (storage_location storage)
                                    (res_filename resource)
                                    (toSecsSinceEpoch timestamp) (res_md5 resource))
    = true ->
    maxVersion (db st) resourceId = Some m ->
    let result := addResourceVersion env resourceId timestamp storage resource st in
    fst result = false
    /\ versionsOf (db (snd result)) resourceId
       = (versionsOf (db st) resourceId
          ++ [mkVersionedRow resourceId
                             (storageIdAt (db st) (storage_location storage))
                             (Some (m + 1)) (res_filename resource)
                             (toSecsSinceEpoch timestamp) 0 (res_md5 resource)])%list
    /\ maxVersion (db (snd result)) resourceId = Some (m + 1)
    /\ resources (db (snd result)) = resources (db st).
Proof.
  intros env resourceId timestamp storage resource st m Hq Hmax; cbv zeta.
  rewrite (addResourceVersion_inserts env resourceId timestamp storage resource st Hq).
  cbn [fst snd db set_db].
  split; [reflexivity|].
  split; [rewrite versionsOf_after_insert, Hmax; reflexivity|].
  split; [now apply maxVersion_after_insert|reflexivity].
Qed.

Lemma addResourceVersion_bumps_max_version_witness :
  fst (addResourceVersion workingEnv 1 200000 folderStorage (brush "c2")
                          cacheWithBrush) = false
  /\ versionsOf (db (snd (addResourceVersion workingEnv 1 200000 folderStorage
                                             (brush "c2") cacheWithBrush))) 1
     = (versionsOf (db cacheWithBrush) 1
        ++ [mkVersionedRow 1 (storageIdAt (db cacheWithBrush)
                                          (storage_location folderStorage))
                           (Some (1 + 1)) (res_filename (brush "c2"))
                           (toSecsSinceEpoch 200000) 0 (res_md5 (brush "c2"))])%list
  /\ maxVersion (db (snd (addResourceVersion workingEnv 1 200000 folderStorage
                                             (brush "c2") cacheWithBrush))) 1
     = Some (1 + 1)
  /\ resources (db (snd (addResourceVersion workingEnv 1 200000 folderStorage
                                            (brush "c2") cacheWithBrush)))
     = resources (db cacheWithBrush).
Proof.
  apply (addResourceVersion_bumps_max_version
           workingEnv 1 200000 folderStorage (brush "c2") cacheWithBrush 1);
    vm_compute; reflexivity.
Defined.

(** X18.  After [addResourceVersion] has stored a version for a timestamp,
    that version is what [resourceNeedsUpdating] compares with: the answer
    is true exactly for candidates of a later second, so the same file does
    not need updating again.  (The resource has a largest version number
    before, the engine carries both statements out, and the second fits an
    [int].) *)
Theorem resourceNeedsUpdating_after_addResourceVersion :
  forall (env : Env) (resourceId : Z) (timestamp candidate : QDateTime)
         (storage : KisResourceStorage) (resource : KoResource) (st : State)
         (m : Z),
    query env st (InsertNextVersion resourceId (storage_location storage)
                                    (res_filename resource)
                                    (toSecsSinceEpoch timestamp) (res_md5 resource))
    = true ->
    carriesOut env (SelectLatestTimestamp resourceId) ->
    maxVersion (db st) resourceId = Some m ->
    - 2 ^ 31 <= toSecsSinceEpoch timestamp < 2 ^ 31 ->
    fst (resourceNeedsUpdating
           env resourceId candidate
           (snd (addResourceVersion env resourceId timestamp storage resource st)))
    = true
    <-> toSecsSinceEpoch candidate > toSecsSinceEpoch timestamp.
Proof.
  intros env resourceId timestamp candidate storage resource st m
         Hq Hsel Hmax Hrange.
  rewrite (addResourceVersion_inserts env resourceId timestamp storage resource st Hq).
  cbn [snd].
  set (s := InsertNextVersion resourceId (storage_location storage)
                              (res_filename resource)
                              (toSecsSinceEpoch timestamp) (res_md5 resource)) in *.
  set (r := mkVersionedRow resourceId (storageIdAt (db st) (storage_location storage))
                           (Some (m + 1)) (res_filename resource)
                           (toSecsSinceEpoch timestamp) 0 (res_md5 resource)).
  assert (Hrows : versionsOf (effect s (db st)) resourceId
                  = (versionsOf (db st) resourceId ++ [r])%list)
    by (unfold s, r; rewrite versionsOf_after_insert, Hmax; reflexivity).
  (* the engine answers the query on the new state *)
  pose proof (query_prepare _ _ _ Hq) as Hp.
  unfold prepare in Hp.
  apply andb_prop in Hp; destruct Hp as [Hp _].
  apply andb_prop in Hp; destruct Hp as [Hp Htabs].
  apply andb_prop in Hp; destruct Hp as [Hopen _].
  cbn [tablesOf forallb s] in Htabs.
  apply andb_prop in Htabs; destruct Htabs as [Htable _].
  destruct (statement_runs env (set_db st (effect s (db st)))
                           (SelectLatestTimestamp resourceId)) as (_ & Hq' & _);
    [exact Hopen|exact Hsel|vm_compute; reflexivity
    |cbn [tablesOf forallb db set_db]; unfold s;
     cbn [effect dbTables set_versioned_resources]; now rewrite Htable|].
  destruct (select_latest_timestamp_newest
              (db (set_db st (effect s (db st)))) resourceId (m + 1) r)
    as [rest Hlatest].
  - cbn [db set_db]; unfold s; now apply maxVersion_after_insert.
  - cbn [db set_db]; rewrite Hrows; apply in_or_app; right; now left.
  - reflexivity.
  - cbn [db set_db]; rewrite Hrows; intros r' Hin Hver.
    apply in_app_or in Hin; destruct Hin as [Hin|[E|[]]]; [|now subst r'].
    pose proof (maxVersion_bound (db st) resourceId m r' (m + 1) Hmax Hin Hver).
    lia.
  - exact (resourceNeedsUpdating_in_range
             env resourceId candidate (set_db st (effect s (db st)))
             (vr_timestamp r) rest Hq' Hlatest Hrange).
Qed.

(** The version stored for second 200 is not outdated by the same file. *)
Lemma resourceNeedsUpdating_after_addResourceVersion_witness :
  fst (resourceNeedsUpdating
         workingEnv 1 200000
         (snd (addResourceVersion workingEnv 1 200000 folderStorage (brush "c2")
                                  cacheWithBrush)))
  = true
  <-> toSecsSinceEpoch 200000 > toSecsSinceEpoch 200000.
Proof.
  apply (resourceNeedsUpdating_after_addResourceVersion
           workingEnv 1 200000 200000 folderStorage (brush "c2") cacheWithBrush 1).
  - vm_compute; reflexivity.
  - intros d; split; reflexivity.
  - vm_compute; reflexivity.
  - vm_compute; split; [discriminate|reflexivity].
Defined.

(** X19.  [addTag] swallows a failed insertion: when the tag is not found,
    the statement can be prepared and the engine then refuses to carry it
    out, the call reports success and nothing is stored. *)
Theorem addTag_swallows_failed_insert :
  forall (env : Env) (resourceType url name comment : string) (st : State),
    hasTag env url resourceType st = false ->
    prepare env st (InsertTag url name comment resourceType) = true ->
    refusesExec env (InsertTag url name comment resourceType) (db st) = true ->
    addTag env resourceType url name comment st = (true, st).
Proof.
  intros env resourceType url name comment st Hnone Hp Hrefused.
  unfold addTag, exec, query.
  now rewrite Hnone, Hp, Hrefused.
Qed.

Lemma addTag_swallows_failed_insert_witness :
  addTag strictEnv "gradients" "favourites" "Favourites" "" freshCache
  = (true, freshCache).
Proof.
  apply (addTag_swallows_failed_insert
           strictEnv "gradients" "favourites" "Favourites" "" freshCache);
    vm_compute; reflexivity.
Defined.

(** X20.  Without the script that creates the first table, the
    initialization of a database that lacks [version_information] fails:
    [initialize] returns false, the flag is false, the connection stays
    open and registered, the database is as it was. *)
Theorem initialize_fails_without_create_script :
  forall (env : Env) (location : string) (st : State),
    connectionNames st = [] ->
    dbOpens env (location ++ "/" ++ resourceCacheDbFilename) = true ->
    contains (dbTables (db st)) "version_information" = false ->
    fileOpens env ":/create_version_information.sql" = false ->
    initialize env location st
    = (false, mkState false [defaultConnection] true (db st)).
Proof.
  intros env location st Hconn Hopen Hmissing Hscript.
  unfold initialize, initDb.
  rewrite Hconn; cbn [negb]; cbv zeta.
  rewrite Hopen; cbn [negb s_valid connectionNames db].
  unfold schemaIsOutDated; cbn [db]; rewrite Hmissing.
  replace (forallb (contains (dbTables (db st))) tables) with false
    by (unfold tables; cbn [forallb]; now rewrite Hmissing).
  cbn [andb].
  unfold tables; cbn [createTables].
  change (":/create_" ++ "version_information" ++ ".sql")
    with ":/create_version_information.sql".
  rewrite Hscript.
  reflexivity.
Qed.

Lemma initialize_fails_without_create_script_witness :
  initialize scriptlessEnv cacheLocation (startState emptyDB)
  = (false, mkState false [defaultConnection] true (db (startState emptyDB))).
Proof.
  apply (initialize_fails_without_create_script
           scriptlessEnv cacheLocation (startState emptyDB));
    reflexivity.
Defined.
